(** * QuantumAlgorithm: backend discovery, setup and execution

    A shallow embedding of [qiskit_aqua/algorithms/quantumalgorithm.py].

    The Python class keeps its state in instance attributes and talks to
    four collaborators (the preferences store, the local [Aer] provider,
    the remote [IBMQ] provider and [run_circuits]).  Here the attributes
    are a record that every method takes and returns, a raised exception
    is a constructor of [outcome], and the collaborators are the fields
    of a record [env] that gives, for one call, what each of them
    answers.

    What the collaborators do inside is not in this file and is taken
    as follows: an exception is an instance of [Exception] (what
    [except Exception] catches); [run_circuits] returns or raises and
    does not write to the dicts it is handed; reading
    [configuration()] of a live backend does not raise.  Whether
    [np.random.RandomState] takes a seed or raises is numpy's to say,
    and comes with each access to [random]. *)

From stdpp Require Import base option list strings gmap pretty.
From Stdlib Require Import ZArith Ascii String.

Local Open Scope string_scope.
Set Warnings "-register-all".

(** ** Python values *)

(** The values this file stores and passes on.  No arithmetic is done on
    any of them; numbers are integers (the defaults of [shots], [wait]
    and [max_credits] are), dicts are written with their items in
    insertion order. *)
Inductive value : Type :=
  | VNone
  | VBool (b : bool)
  | VInt (n : Z)
  | VStr (s : string)
  | VList (l : list value)
  | VDict (d : list (string * value)).

(** [x is None] *)
Definition is_None (v : value) : bool :=
  match v with VNone => true | _ => false end.

(** [isinstance(x, list)] *)
Definition isinstance_list (v : value) : bool :=
  match v with VList _ => true | _ => false end.

(** *** [repr] and [str] *)

Definition dquote : ascii := ascii_of_nat 34.
Definition squote : ascii := ascii_of_nat 39.
Definition backslash : ascii := ascii_of_nat 92.

Fixpoint contains_char (c : ascii) (s : string) : bool :=
  match s with
  | EmptyString => false
  | String a s' => Ascii.eqb a c || contains_char c s'
  end.

Definition hex_digit (n : nat) : ascii :=
  if Nat.ltb n 10 then ascii_of_nat (48 + n) else ascii_of_nat (87 + n).

(** One character inside a string literal delimited by [q].  Characters
    above 127 are copied as they are, as Python does with printable
    non-ASCII text. *)
Definition repr_char (q c : ascii) : string :=
  let n := nat_of_ascii c in
  if Ascii.eqb c q || Ascii.eqb c backslash then String backslash (String c "")
  else if Nat.eqb n 9 then String backslash "t"
  else if Nat.eqb n 10 then String backslash "n"
  else if Nat.eqb n 13 then String backslash "r"
  else if Nat.ltb n 32 || Nat.eqb n 127 then
    String backslash (String "x" (String (hex_digit (n / 16)) (String (hex_digit (n mod 16)) "")))
  else String c "".

Fixpoint repr_chars (q : ascii) (s : string) : string :=
  match s with
  | EmptyString => ""
  | String c s' => repr_char q c ++ repr_chars q s'
  end.

(** [repr] of a [str]: single quotes, unless the text has a single quote
    and no double quote. *)
Definition repr_str (s : string) : string :=
  let q := if contains_char squote s && negb (contains_char dquote s)
           then dquote else squote in
  String q (repr_chars q s ++ String q "").

Fixpoint py_repr (v : value) : string :=
  match v with
  | VNone => "None"
  | VBool true => "True"
  | VBool false => "False"
  | VInt n => pretty n
  | VStr s => repr_str s
  | VList l => "[" ++ String.concat ", " (map py_repr l) ++ "]"
  | VDict d =>
      "{" ++ String.concat ", "
               (map (fun kv => repr_str (fst kv) ++ ": " ++ py_repr (snd kv)) d)
          ++ "}"
  end.

(** [str(x)]: the text itself for a [str], [repr(x)] for the rest. *)
Definition py_str (v : value) : string :=
  match v with
  | VStr s => s
  | _ => py_repr v
  end.

(** [','.join(names)] *)
Definition comma_join (names : list string) : string :=
  String.concat "," names.

(** ** Exceptions *)

(** Instances of [Exception] and its subclasses; the handlers of this
    file tell [KeyError] from the rest, and the file itself raises
    [AquaError]. *)
Inductive exn : Type :=
  | KeyError (msg : string)
  | AquaError (msg : string)
  | OtherException (msg : string).

Inductive outcome (A : Type) : Type :=
  | Ok (a : A)
  | Raise (e : exn).
Arguments Ok {A} a.
Arguments Raise {A} e.

#[global] Instance outcome_ret : MRet outcome := fun A a => Ok a.
#[global] Instance outcome_bind : MBind outcome := fun A B f m =>
  match m with
  | Ok a => f a
  | Raise e => Raise e
  end.

(** ** Backends and collaborators *)

(** What [backend.configuration()] exposes of a live backend;
    [conf_coupling_map] is [to_dict().get('coupling_map', None)]. *)
Record BaseBackend : Type := {
  conf_backend_name : string;
  conf_simulator : bool;
  conf_local : bool;
  conf_basis_gates : value;
  conf_coupling_map : value
}.

(** The [backend] argument of setup: [None], a [str] or a [BaseBackend]. *)
Inductive backend_ref : Type :=
  | RefNone
  | RefName (name : string)
  | RefHandle (b : BaseBackend).

(** [Preferences()]: the stored url and token, when there are any. *)
Record Preferences : Type := {
  pref_url : option string;
  pref_token : option string
}.

(** [preferences.get_url(default)] and [get_token(default)] with a [str]
    default; [get_url()], whose default is [None], is [pref_url]. *)
Definition get_url (p : Preferences) (d : string) : string := default d (pref_url p).
Definition get_token (p : Preferences) (d : string) : string := default d (pref_token p).

Inductive QuantumCircuit : Type := Circuit (id : nat).
Inductive Result : Type := ResultObj (id : nat).

(** What the collaborators answer during one call.
    - [new_Preferences]: [Preferences()];
    - [ibmq_register token url]: building [Credentials] (with the
      proxies of the preferences) and the [IBMQSingleProvider] stored in
      [qiskit.IBMQ._accounts];
    - [ibmq_backends url token]: the names of [qiskit.IBMQ.backends(...)];
    - [aer_backends]: the names of [qiskit.Aer.backends()];
    - [aer_get_backend], [ibmq_get_backend name url token]: the
      providers' [get_backend];
    - [run_circuits]: [run_circuits.run_circuits], on one circuit or on
      a list of them. *)
Record env : Type := {
  new_Preferences : outcome Preferences;
  ibmq_register : string → string → outcome unit;
  ibmq_backends : string → string → outcome (list string);
  aer_backends : outcome (list string);
  aer_get_backend : string → outcome (option BaseBackend);
  ibmq_get_backend : string → string → string → outcome (option BaseBackend);
  run_circuits : list QuantumCircuit → option BaseBackend →
                 gmap string value → gmap string value → bool → bool →
                 outcome Result
}.

(** ** The class *)

Definition UNSUPPORTED_BACKENDS : list string :=
  ["unitary_simulator"; "clifford_simulator"].

Definition EQUIVALENT_BACKENDS : gmap string string :=
  list_to_map
    [("statevector_simulator_py", "statevector_simulator");
     ("statevector_simulator_sympy", "statevector_simulator");
     ("statevector_simulator_projectq", "statevector_simulator");
     ("qasm_simulator_py", "qasm_simulator");
     ("qasm_simulator_projectq", "qasm_simulator")].

(** [d.get(k, k)] *)
Definition get_or_self (d : gmap string string) (k : string) : string :=
  default k (d !! k).

(** [s.startswith(p)] *)
Definition startswith (s p : string) : bool := String.prefix p s.

(** [np.random], the generator of the module that every caller shares,
    or a [np.random.RandomState] object of its own, known by its address
    in the store. *)
Inductive random_source : Type :=
  | np_random
  | RandomState (addr : nat).

(** The [RandomState] objects built so far, each with the seed it was
    built from; the address of an object is its position. *)
Definition store : Type := list value.

(** [np.random.RandomState(seed)]: [np seed] is what numpy answers to
    the seed, taking it or raising; a seed that is taken gives a new
    object in the store. *)
Definition new_RandomState (np : value → outcome unit) (seed : value)
    (h : store) : outcome (nat * store) :=
  _ ← np seed; Ok (List.length h, (h ++ [seed])%list).

(** The instance attributes. *)
Record QuantumAlgorithm : Type := {
  _backend : option BaseBackend;
  _execute_config : gmap string value;
  _qjob_config : gmap string value;
  _random_seed : value;
  _random : option random_source;
  _show_circuit_summary : bool;
  _has_shared_circuits : bool
}.

Definition __init__ : QuantumAlgorithm :=
  {| _backend := None;
     _execute_config := ∅;
     _qjob_config := ∅;
     _random_seed := VNone;
     _random := None;
     _show_circuit_summary := false;
     _has_shared_circuits := false |}.

Definition set_backend (b : option BaseBackend) (self : QuantumAlgorithm) :=
  {| _backend := b;
     _execute_config := _execute_config self;
     _qjob_config := _qjob_config self;
     _random_seed := _random_seed self;
     _random := _random self;
     _show_circuit_summary := _show_circuit_summary self;
     _has_shared_circuits := _has_shared_circuits self |}.

Definition set_execute_config (c : gmap string value) (self : QuantumAlgorithm) :=
  {| _backend := _backend self;
     _execute_config := c;
     _qjob_config := _qjob_config self;
     _random_seed := _random_seed self;
     _random := _random self;
     _show_circuit_summary := _show_circuit_summary self;
     _has_shared_circuits := _has_shared_circuits self |}.

Definition set_qjob_config (c : gmap string value) (self : QuantumAlgorithm) :=
  {| _backend := _backend self;
     _execute_config := _execute_config self;
     _qjob_config := c;
     _random_seed := _random_seed self;
     _random := _random self;
     _show_circuit_summary := _show_circuit_summary self;
     _has_shared_circuits := _has_shared_circuits self |}.

Definition set_random (r : option random_source) (self : QuantumAlgorithm) :=
  {| _backend := _backend self;
     _execute_config := _execute_config self;
     _qjob_config := _qjob_config self;
     _random_seed := _random_seed self;
     _random := r;
     _show_circuit_summary := _show_circuit_summary self;
     _has_shared_circuits := _has_shared_circuits self |}.

Definition set_show_circuit_summary (b : bool) (self : QuantumAlgorithm) :=
  {| _backend := _backend self;
     _execute_config := _execute_config self;
     _qjob_config := _qjob_config self;
     _random_seed := _random_seed self;
     _random := _random self;
     _show_circuit_summary := b;
     _has_shared_circuits := _has_shared_circuits self |}.

(** The [random_seed] property and its setter. *)
Definition random_seed (self : QuantumAlgorithm) : value := _random_seed self.

Definition set_random_seed (seed : value) (self : QuantumAlgorithm) :=
  {| _backend := _backend self;
     _execute_config := _execute_config self;
     _qjob_config := _qjob_config self;
     _random_seed := seed;
     _random := _random self;
     _show_circuit_summary := _show_circuit_summary self;
     _has_shared_circuits := _has_shared_circuits self |}.

(** The [random] property: the value returned or the exception raised,
    the store and the instance after the access.  When [RandomState]
    raises, the assignment to [_random] is not reached. *)
Definition random (np : value → outcome unit) (h : store)
    (self : QuantumAlgorithm)
  : outcome random_source * store * QuantumAlgorithm :=
  match _random self with
  | None =>
      if is_None (_random_seed self)
      then (Ok np_random, h, set_random (Some np_random) self)
      else
        match new_RandomState np (_random_seed self) h with
        | Ok (a, h') =>
            (Ok (RandomState a), h', set_random (Some (RandomState a)) self)
        | Raise x => (Raise x, h, self)
        end
  | Some r => (Ok r, h, self)
  end.

(** The [backend] property. *)
Definition backend (self : QuantumAlgorithm) : option BaseBackend := _backend self.

Definition is_statevector_backend (backend : option BaseBackend) : bool :=
  match backend with
  | Some b => startswith (conf_backend_name b) "statevector"
  | None => false
  end.

Definition backend_name (backend : option BaseBackend) : string :=
  match backend with
  | Some b => conf_backend_name b
  | None => ""
  end.

Definition enable_circuit_summary (self : QuantumAlgorithm) : QuantumAlgorithm :=
  set_show_circuit_summary true self.

Definition disable_circuit_summary (self : QuantumAlgorithm) : QuantumAlgorithm :=
  set_show_circuit_summary false self.

(** The [has_shared_circuits] property and its setter. *)
Definition has_shared_circuits (self : QuantumAlgorithm) : bool :=
  _has_shared_circuits self.

Definition set_has_shared_circuits (new_value : bool) (self : QuantumAlgorithm) :=
  {| _backend := _backend self;
     _execute_config := _execute_config self;
     _qjob_config := _qjob_config self;
     _random_seed := _random_seed self;
     _random := _random self;
     _show_circuit_summary := _show_circuit_summary self;
     _has_shared_circuits := new_value |}.

(** *** Discovery *)

(** The body of the [try] block: the names of the remote backends, or
    the exception that left the block. *)
Definition ibmq_discovery (e : env) : outcome (list string) :=
  preferences ← new_Preferences e;
  let url := pref_url preferences in
  let token := pref_token preferences in
  match url, token with
  | Some u, Some t =>
      if negb (String.eqb u "") && negb (String.eqb t "")
      then _ ← ibmq_register e t u; ibmq_backends e u t
      else Ok []
  | _, _ => Ok []
  end.

(** The inner [for] loop with its [break]: is [backend] supported? *)
Fixpoint supported (backend : string) (unsupported : list string) : bool :=
  match unsupported with
  | [] => true
  | unsupported_backend :: rest =>
      if startswith backend unsupported_backend then false
      else supported backend rest
  end.

(** One round of the outer loop on the set [backends]. *)
Definition add_if_supported (backends : gset string) (aer_backend : string)
  : gset string :=
  if supported aer_backend UNSUPPORTED_BACKENDS
  then backends ∪ {[aer_backend]}
  else backends.

(** The [try] statement: [ibmq_backends], set to [[]] before it, is
    assigned by the last line of the block only. *)
Definition ibmq_backends_found (e : env) : list string :=
  match ibmq_discovery e with
  | Ok names => names
  | Raise _ => []
  end.

(** The names that pass the filter, as a set. *)
Definition supported_set (aer_backends : list string) : gset string :=
  foldl add_if_supported ∅ aer_backends.

(** [list(backends)] lists the set in an order of its own, here the one
    of [elements]. *)
Definition register_and_get_operational_backends (e : env)
  : outcome (list string) :=
  let ibmq_backends := ibmq_backends_found e in
  aer_backends ← aer_backends e;
  let backends := supported_set aer_backends in
  Ok (elements backends ++ ibmq_backends)%list.

(** *** Setup *)

(** The arguments of [setup_quantum_backend] other than [backend]. *)
Record setup_args : Type := {
  shots : value;
  skip_transpiler : value;
  noise_params : value;
  coupling_map : value;
  initial_layout : value;
  hpc_params : value;
  basis_gates : value;
  max_credits : value;
  timeout : value;
  wait : value
}.

Definition default_args : setup_args :=
  {| shots := VInt 1024;
     skip_transpiler := VBool false;
     noise_params := VNone;
     coupling_map := VNone;
     initial_layout := VNone;
     hpc_params := VNone;
     basis_gates := VNone;
     max_credits := VInt 10;
     timeout := VNone;
     wait := VInt 5 |}.

Definition default_backend : backend_ref := RefName "statevector_simulator".

Definition not_operational (backend : string) (operational_backends : list string)
  : exn :=
  AquaError ("This backend '" ++ backend
             ++ "' is not operational for the quantum algorithm, "
             ++ "                                     select any one below: "
             ++ py_str (VList (map VStr operational_backends))).

(** The check made on a backend given by name. *)
Definition check_operational (e : env) (backend : backend_ref) : outcome unit :=
  match backend with
  | RefName name =>
      operational_backends ← register_and_get_operational_backends e;
      if bool_decide (get_or_self EQUIVALENT_BACKENDS name ∈ operational_backends)
      then Ok ()
      else Raise (not_operational name operational_backends)
  | _ => Ok ()
  end.

(** [Aer.get_backend], and [IBMQ.get_backend] when the former raises
    [KeyError]. *)
Definition get_backend (e : env) (backend : string) : outcome (option BaseBackend) :=
  match aer_get_backend e backend with
  | Raise (KeyError _) =>
      preferences ← new_Preferences e;
      ibmq_get_backend e backend (get_url preferences "") (get_token preferences "")
  | r => r
  end.

Definition find_my_backend (e : env) (backend : backend_ref) : outcome BaseBackend :=
  match backend with
  | RefHandle b => Ok b
  | RefName name =>
      my_backend ← get_backend e name;
      match my_backend with
      | Some b => Ok b
      | None => Raise (AquaError ("Missing algorithm backend '" ++ name ++ "'"))
      end
  | RefNone => Raise (AquaError "Missing algorithm backend")
  end.

(** The dict stored in [_execute_config]. *)
Definition make_execute_config (my_backend : BaseBackend) (a : setup_args)
    (seed : value) : gmap string value :=
  let shots := if is_statevector_backend (Some my_backend) then VInt 1 else shots a in
  let noise_params := if conf_simulator my_backend then noise_params a else VNone in
  let coupling_map :=
    if is_None (coupling_map a) then conf_coupling_map my_backend else coupling_map a in
  let basis_gates :=
    if is_None (basis_gates a) then conf_basis_gates my_backend else basis_gates a in
  let basis_gates :=
    if isinstance_list basis_gates then VStr (py_str basis_gates) else basis_gates in
  list_to_map
    [("shots", shots);
     ("skip_transpiler", skip_transpiler a);
     ("config", VDict [("noise_params", noise_params)]);
     ("basis_gates", basis_gates);
     ("coupling_map", coupling_map);
     ("initial_layout", initial_layout a);
     ("max_credits", max_credits a);
     ("seed", seed);
     ("qobj_id", VNone);
     ("hpc", hpc_params a)].

(** The dict that setup leaves in [_qjob_config] on [my_backend]: the
    one it stores first, less [wait] on a local backend. *)
Definition qjob_config_for (my_backend : BaseBackend) (a : setup_args)
  : gmap string value :=
  let d := list_to_map [("timeout", timeout a); ("wait", wait a)] in
  if conf_local my_backend then delete "wait" d else d.

(** The method: what it returns or raises, and the instance it leaves.
    Its last lines, which format a message from the instance and pass it
    to [logger.info], are left out. *)
Definition setup_quantum_backend (e : env) (backend : backend_ref)
    (a : setup_args) (self : QuantumAlgorithm) : outcome unit * QuantumAlgorithm :=
  match backend with
  | RefNone => (Raise (AquaError "Missing algorithm backend"), self)
  | _ =>
      match check_operational e backend with
      | Raise x => (Raise x, self)
      | Ok _ =>
          let self :=
            set_qjob_config
              (list_to_map [("timeout", timeout a); ("wait", wait a)]) self in
          match find_my_backend e backend with
          | Raise x => (Raise x, self)
          | Ok my_backend =>
              let self := set_backend (Some my_backend) self in
              let self :=
                if conf_local my_backend
                then set_qjob_config (delete "wait" (_qjob_config self)) self
                else self in
              (Ok (),
               set_execute_config
                 (make_execute_config my_backend a (_random_seed self)) self)
          end
      end
  end.

(** *** Execution *)

Definition execute (e : env) (circuits : list QuantumCircuit)
    (self : QuantumAlgorithm) : outcome Result * QuantumAlgorithm :=
  match run_circuits e circuits (_backend self) (_execute_config self)
          (_qjob_config self) (_show_circuit_summary self)
          (has_shared_circuits self) with
  | Raise x => (Raise x, self)
  | Ok result =>
      (Ok result,
       if _show_circuit_summary self then disable_circuit_summary self else self)
  end.

(** *** The life of an instance *)

(** A use of the instance by its owner. *)
Inductive call : Type :=
  | call_set_random_seed (seed : value)
  | call_random (np : value → outcome unit)
  | call_enable_circuit_summary
  | call_disable_circuit_summary
  | call_set_has_shared_circuits (new_value : bool)
  | call_setup_quantum_backend (e : env) (backend : backend_ref) (a : setup_args)
  | call_execute (e : env) (circuits : list QuantumCircuit).

Definition is_call_random (c : call) : bool :=
  match c with call_random _ => true | _ => false end.

Definition raised {A : Type} (o : outcome A) : bool :=
  match o with Raise _ => true | Ok _ => false end.

(** One call on the store and the instance; an access to [random] also
    gives the source it returned or the exception it raised. *)
Definition do_call (c : call) (st : store * QuantumAlgorithm)
  : option (outcome random_source) * (store * QuantumAlgorithm) :=
  let '(h, self) := st in
  match c with
  | call_set_random_seed seed => (None, (h, set_random_seed seed self))
  | call_random np =>
      let '(r, h', self') := random np h self in (Some r, (h', self'))
  | call_enable_circuit_summary => (None, (h, enable_circuit_summary self))
  | call_disable_circuit_summary => (None, (h, disable_circuit_summary self))
  | call_set_has_shared_circuits b => (None, (h, set_has_shared_circuits b self))
  | call_setup_quantum_backend e backend a =>
      (None, (h, snd (setup_quantum_backend e backend a self)))
  | call_execute e circuits => (None, (h, snd (execute e circuits self)))
  end.

(** A sequence of calls: what the accesses to [random] returned or
    raised, in order, and the final state. *)
Fixpoint do_calls (cs : list call) (st : store * QuantumAlgorithm)
  : list (outcome random_source) * (store * QuantumAlgorithm) :=
  match cs with
  | [] => ([], st)
  | c :: cs' =>
      let '(r, st') := do_call c st in
      let '(rs, st'') := do_calls cs' st' in
      (match r with Some x => x :: rs | None => rs end, st'')
  end.

(** ** Example backends and environments *)

Definition statevector_simulator : BaseBackend :=
  {| conf_backend_name := "statevector_simulator";
     conf_simulator := true;
     conf_local := true;
     conf_basis_gates := VList [VStr "u1"; VStr "u2"; VStr "u3"; VStr "cx"; VStr "id"];
     conf_coupling_map := VNone |}.

Definition qasm_simulator : BaseBackend :=
  {| conf_backend_name := "qasm_simulator";
     conf_simulator := true;
     conf_local := true;
     conf_basis_gates := VStr "u1,u2,u3,cx,id";
     conf_coupling_map := VNone |}.

Definition ibmqx4 : BaseBackend :=
  {| conf_backend_name := "ibmqx4";
     conf_simulator := false;
     conf_local := false;
     conf_basis_gates := VStr "u1,u2,u3,cx,id";
     conf_coupling_map := VList [VList [VInt 1; VInt 0]; VList [VInt 2; VInt 0]] |}.

(** The Python implementation of the QASM simulator, a backend of its
    own next to [qasm_simulator]. *)
Definition qasm_simulator_py : BaseBackend :=
  {| conf_backend_name := "qasm_simulator_py";
     conf_simulator := true;
     conf_local := true;
     conf_basis_gates := VStr "u1,u2,u3,cx,id";
     conf_coupling_map := VNone |}.

Definition aer_names : list string :=
  ["qasm_simulator"; "qasm_simulator_py"; "statevector_simulator";
   "unitary_simulator"; "clifford_simulator"].

(** A local provider that knows its backends by their own names only. *)
Definition aer_by_name (name : string) : outcome (option BaseBackend) :=
  if String.eqb name "statevector_simulator" then Ok (Some statevector_simulator)
  else if String.eqb name "qasm_simulator" then Ok (Some qasm_simulator)
  else if String.eqb name "qasm_simulator_py" then Ok (Some qasm_simulator_py)
  else Raise (KeyError name).

Definition ibmq_by_name (name url token : string) : outcome (option BaseBackend) :=
  if String.eqb name "ibmqx4" then Ok (Some ibmqx4)
  else Raise (OtherException "backend not found").

Definition no_credentials : Preferences :=
  {| pref_url := None; pref_token := None |}.

Definition some_credentials : Preferences :=
  {| pref_url := Some "https://quantum.example/api"; pref_token := Some "token" |}.

Definition example_env (preferences : Preferences)
    (remote : outcome (list string)) (run : outcome Result) : env :=
  {| new_Preferences := Ok preferences;
     ibmq_register := λ _ _, Ok ();
     ibmq_backends := λ _ _, remote;
     aer_backends := Ok aer_names;
     aer_get_backend := aer_by_name;
     ibmq_get_backend := ibmq_by_name;
     run_circuits := λ _ _ _ _ _ _, run |}.

(** The default arguments with 4096 shots asked for. *)
Definition args_4096_shots : setup_args :=
  {| shots := VInt 4096;
     skip_transpiler := VBool false;
     noise_params := VNone;
     coupling_map := VNone;
     initial_layout := VNone;
     hpc_params := VNone;
     basis_gates := VNone;
     max_credits := VInt 10;
     timeout := VNone;
     wait := VInt 5 |}.

(** No stored credentials: local backends only. *)
Definition local_only : env :=
  example_env no_credentials (Ok []) (Ok (ResultObj 0)).

(** The remote provider lists a device and two names the local provider
    lists too. *)
Definition remote_overlap : env :=
  example_env some_credentials
    (Ok ["ibmqx4"; "qasm_simulator"; "unitary_simulator"]) (Ok (ResultObj 0)).

(** The remote listing fails. *)
Definition remote_down : env :=
  example_env some_credentials
    (Raise (OtherException "connection refused")) (Ok (ResultObj 0)).

(** The runner fails. *)
Definition runner_fails : env :=
  example_env no_credentials (Ok []) (Raise (OtherException "job failed")).

(** Only the Python simulators are installed: the local provider lists
    and knows [qasm_simulator_py], and nothing else. *)
Definition python_only : env :=
  {| new_Preferences := Ok no_credentials;
     ibmq_register := λ _ _, Ok ();
     ibmq_backends := λ _ _, Ok [];
     aer_backends := Ok ["qasm_simulator_py"];
     aer_get_backend := λ name,
       if String.eqb name "qasm_simulator_py" then Ok (Some qasm_simulator_py)
       else Raise (KeyError name);
     ibmq_get_backend := ibmq_by_name;
     run_circuits := λ _ _ _ _ _ _, Ok (ResultObj 0) |}.

(** A local provider whose lookup fails with something other than
    [KeyError], or answers [None]. *)
Definition aer_lookup_answers (r : outcome (option BaseBackend)) : env :=
  {| new_Preferences := Ok some_credentials;
     ibmq_register := λ _ _, Ok ();
     ibmq_backends := λ _ _, Ok ["ibmqx4"];
     aer_backends := Ok aer_names;
     aer_get_backend := λ _, r;
     ibmq_get_backend := ibmq_by_name;
     run_circuits := λ _ _ _ _ _ _, Ok (ResultObj 0) |}.

(** No stored credentials, and a remote provider that would raise if it
    were asked. *)
Definition offline_no_credentials : env :=
  {| new_Preferences := Ok no_credentials;
     ibmq_register := λ _ _, Raise (OtherException "no network");
     ibmq_backends := λ _ _, Raise (OtherException "no network");
     aer_backends := Ok aer_names;
     aer_get_backend := aer_by_name;
     ibmq_get_backend := λ _ _ _, Raise (OtherException "no network");
     run_circuits := λ _ _ _ _ _ _, Ok (ResultObj 0) |}.

(** [np.random.RandomState] on the seeds of the examples: [None] and an
    integer from 0 to 2**32 - 1 are taken, any other integer makes the
    constructor raise [ValueError], and a seed of another kind is
    refused here. *)
Definition numpy_RandomState (seed : value) : outcome unit :=
  match seed with
  | VNone => Ok ()
  | VInt n =>
      if (0 <=? n)%Z && (n <? 2 ^ 32)%Z then Ok ()
      else Raise (OtherException "ValueError: Seed must be between 0 and 2**32 - 1")
  | _ => Raise (OtherException "TypeError: bad seed")
  end.

(** An instance whose seed has been set. *)
Definition seeded (seed : Z) : QuantumAlgorithm :=
  set_random_seed (VInt seed) __init__.

(** A remote device asked for with a noise model, a layout and a
    timeout. *)
Definition device_args : setup_args :=
  {| shots := VInt 2048;
     skip_transpiler := VBool true;
     noise_params := VDict [("U", VDict [("p_pauli", VList [VInt 0; VInt 0; VInt 1])])];
     coupling_map := VNone;
     initial_layout := VDict [("q0", VInt 1)];
     hpc_params := VNone;
     basis_gates := VNone;
     max_credits := VInt 3;
     timeout := VInt 600;
     wait := VInt 30 |}.

(** Setup of a new instance on the remote device [ibmqx4], and on the
    local [qasm_simulator] with the same arguments. *)
Definition ibmqx4_setup : outcome unit * QuantumAlgorithm :=
  setup_quantum_backend remote_overlap (RefName "ibmqx4") device_args __init__.

Definition qasm_setup : outcome unit * QuantumAlgorithm :=
  setup_quantum_backend remote_overlap (RefName "qasm_simulator") device_args
    __init__.

Definition is_call_setup (c : call) : bool :=
  match c with call_setup_quantum_backend _ _ _ => true | _ => false end.

(** The backend and [_execute_config] belong together: none of either
    yet, or a backend and a dict derived from it. *)
Definition configured (self : QuantumAlgorithm) : Prop :=
  match _backend self with
  | None => _execute_config self = ∅
  | Some b => ∃ a seed, _execute_config self = make_execute_config b a seed
  end.

(** [isinstance(x, KeyError)] *)
Definition is_KeyError (x : exn) : bool :=
  match x with KeyError _ => true | _ => false end.

(** The dict that setup stores in [_qjob_config] before it looks the
    backend up. *)
Definition first_qjob_config (a : setup_args) : gmap string value :=
  list_to_map [("timeout", timeout a); ("wait", wait a)].

(** * Properties *)

(** Unfolds the binds of [outcome]. *)
Ltac unfold_bind :=
  unfold mbind, mret, outcome_bind, outcome_ret in *; simpl in *.

(** ** Discovery *)

Lemma supported_false_iff (backend : string) (unsupported : list string) :
  supported backend unsupported = false ↔
  ∃ p, p ∈ unsupported ∧ startswith backend p = true.
Proof.
  induction unsupported as [|u rest IH]; simpl.
  - split; [done|]. intros (p & Hp & _). by apply not_elem_of_nil in Hp.
  - destruct (startswith backend u) eqn:Hu.
    + split; [|done]. intros _. exists u. split; [left|done].
    + rewrite IH. split.
      * intros (p & Hp & Hs). exists p. split; [by right|done].
      * intros (p & Hp & Hs). apply elem_of_cons in Hp as [->|Hp].
        -- congruence.
        -- by exists p.
Qed.

Lemma supported_true_iff (backend : string) (unsupported : list string) :
  supported backend unsupported = true ↔
  ∀ p, p ∈ unsupported → startswith backend p = false.
Proof.
  rewrite <- not_false_iff_true, supported_false_iff. split.
  - intros H p Hp. apply not_true_is_false. intros Hs. apply H. by exists p.
  - intros H (p & Hp & Hs). rewrite (H p Hp) in Hs. discriminate.
Qed.

Lemma elem_of_foldl_add_if_supported (names : list string) (acc : gset string)
    (x : string) :
  x ∈ foldl add_if_supported acc names ↔
  x ∈ acc ∨ (x ∈ names ∧ supported x UNSUPPORTED_BACKENDS = true).
Proof.
  revert acc. induction names as [|n names IH]; intros acc; cbn [foldl].
  - split; [by left|]. intros [?|[H _]]; [done|]. by apply not_elem_of_nil in H.
  - rewrite IH. unfold add_if_supported.
    destruct (supported n UNSUPPORTED_BACKENDS) eqn:Hn.
    + rewrite elem_of_union, elem_of_singleton, elem_of_cons. split.
      * intros [[?| ->]|[? ?]]; auto.
      * intros [?|[[->|?] ?]]; auto.
    + rewrite elem_of_cons. split.
      * intros [?|[? ?]]; auto.
      * intros [?|[[->|?] ?]]; auto. congruence.
Qed.

Lemma elem_of_supported_set (names : list string) (x : string) :
  x ∈ supported_set names ↔
  x ∈ names ∧ supported x UNSUPPORTED_BACKENDS = true.
Proof.
  unfold supported_set. rewrite elem_of_foldl_add_if_supported.
  split; [|by right]. intros [H|H]; [|done]. by apply not_elem_of_empty in H.
Qed.

(** The shape of what discovery returns once the local provider has
    listed its backends. *)
Lemma discovery_shape (e : env) (aer : list string) :
  aer_backends e = Ok aer →
  register_and_get_operational_backends e
  = Ok (elements (supported_set aer) ++ ibmq_backends_found e)%list.
Proof.
  intros H. unfold register_and_get_operational_backends. by rewrite H.
Qed.

(** When the [try] block raises and why. *)
Lemma ibmq_discovery_raises (e : env) (x : exn) :
  ibmq_discovery e = Raise x ↔
  new_Preferences e = Raise x ∨
  ∃ p u t, new_Preferences e = Ok p ∧ pref_url p = Some u ∧ pref_token p = Some t
           ∧ u ≠ "" ∧ t ≠ ""
           ∧ (ibmq_register e t u = Raise x
              ∨ (ibmq_register e t u = Ok () ∧ ibmq_backends e u t = Raise x)).
Proof.
  unfold ibmq_discovery. destruct (new_Preferences e) as [p|y]; simpl.
  - split.
    + intros H. right. exists p.
      destruct (pref_url p) as [u|]; [|done].
      destruct (pref_token p) as [t|]; [|done].
      exists u, t.
      destruct (String.eqb u "") eqn:Hu; [done|].
      destruct (String.eqb t "") eqn:Ht; [done|].
      apply String.eqb_neq in Hu, Ht. simpl in H.
      repeat split; try done.
      destruct (ibmq_register e t u) as [[]|z]; unfold_bind;
        [right; split; congruence | left; congruence].
    + intros [?|(p' & u & t & Hp & Hu & Ht & Hne1 & Hne2 & H)]; [done|].
      injection Hp as <-. rewrite Hu, Ht.
      apply String.eqb_neq in Hne1, Hne2. rewrite Hne1, Hne2. simpl.
      destruct H as [->|[-> ->]]; unfold_bind; done.
  - split; [intros [= ->]; by left|].
    intros [[= ->]|(p & ? & ? & ? & _)]; done.
Qed.




(** C6 fails as stated: a remote name with an unsupported prefix is
    returned. *)
Lemma discovery_keeps_remote_unsupported_name :
  ∃ l, register_and_get_operational_backends remote_overlap = Ok l
       ∧ "unitary_simulator" ∈ UNSUPPORTED_BACKENDS
       ∧ startswith "unitary_simulator" "unitary_simulator" = true
       ∧ "unitary_simulator" ∈ l.
Proof.
  eexists. split; [vm_compute; reflexivity|].
  split; [set_solver|]. split; [reflexivity|]. set_solver.
Qed.

(** C6, amended: a name that starts with an unsupported prefix is
    returned exactly when the remote provider listed it; the local
    provider listing it never puts it in the result. *)
Theorem unsupported_name_only_from_remote (e : env) (l : list string)
    (x p : string) :
  register_and_get_operational_backends e = Ok l →
  p ∈ UNSUPPORTED_BACKENDS →
  startswith x p = true →
  x ∈ l ↔ x ∈ ibmq_backends_found e.
Proof.
  intros Hl Hp Hx.
  unfold register_and_get_operational_backends in Hl.
  destruct (aer_backends e) as [aer|y]; unfold_bind; [|done].
  injection Hl as <-.
  assert (supported x UNSUPPORTED_BACKENDS = false) as Hs.
  { apply supported_false_iff. by exists p. }
  rewrite elem_of_app, elem_of_elements, elem_of_supported_set.
  split; [|by right]. intros [[_ H]|H]; [congruence|done].
Qed.

Lemma unsupported_name_only_from_remote_witness :
  register_and_get_operational_backends local_only
  = Ok ["statevector_simulator"; "qasm_simulator_py"; "qasm_simulator"]
  ∧ "unitary_simulator" ∈ UNSUPPORTED_BACKENDS
  ∧ startswith "unitary_simulator" "unitary_simulator" = true
  ∧ ("unitary_simulator" ∈ ["statevector_simulator"; "qasm_simulator_py"; "qasm_simulator"]
     ↔ "unitary_simulator" ∈ ibmq_backends_found local_only).
Proof.
  assert (register_and_get_operational_backends local_only
          = Ok ["statevector_simulator"; "qasm_simulator_py"; "qasm_simulator"]) as H
    by (vm_compute; reflexivity).
  assert ("unitary_simulator" ∈ UNSUPPORTED_BACKENDS) as Hp by left.
  split; [exact H|]. split; [exact Hp|]. split; [reflexivity|].
  exact (unsupported_name_only_from_remote local_only _
           "unitary_simulator" "unitary_simulator" H Hp eq_refl).
Defined.

(** C7: when the [try] block raises, whatever the exception and the
    step that raised it, discovery does not raise and returns the local
    names that start with no unsupported prefix, and nothing else. *)
Theorem discovery_survives_remote_failure (e : env) (x : exn)
    (aer : list string) :
  ibmq_discovery e = Raise x →
  aer_backends e = Ok aer →
  ibmq_backends_found e = []
  ∧ ∃ l, register_and_get_operational_backends e = Ok l
         ∧ NoDup l
         ∧ ∀ n, n ∈ l ↔
                n ∈ aer
                ∧ ∀ p, p ∈ UNSUPPORTED_BACKENDS → startswith n p = false.
Proof.
  intros Hx Haer.
  assert (ibmq_backends_found e = []) as Hnone.
  { unfold ibmq_backends_found. by rewrite Hx. }
  split; [exact Hnone|].
  exists (elements (supported_set aer)). split.
  - rewrite (discovery_shape e aer Haer), Hnone. by rewrite app_nil_r.
  - split; [apply NoDup_elements|].
    intros n.
    by rewrite elem_of_elements, elem_of_supported_set, supported_true_iff.
Qed.

Lemma discovery_survives_remote_failure_witness :
  ibmq_discovery remote_down = Raise (OtherException "connection refused")
  ∧ aer_backends remote_down = Ok aer_names
  ∧ ibmq_backends_found remote_down = []
  ∧ ∃ l, register_and_get_operational_backends remote_down = Ok l
         ∧ NoDup l
         ∧ ∀ n, n ∈ l ↔
                n ∈ aer_names
                ∧ ∀ p, p ∈ UNSUPPORTED_BACKENDS → startswith n p = false.
Proof.
  split; [reflexivity|]. split; [reflexivity|].
  exact (discovery_survives_remote_failure remote_down _ aer_names
           eq_refl eq_refl).
Defined.

(** ** Setup *)

(** A setup that returns has found a backend and left the instance
    with it, the two dicts derived from it, and the rest as it was. *)
Lemma setup_ok_inv (e : env) (backend : backend_ref) (a : setup_args)
    (self self' : QuantumAlgorithm) :
  setup_quantum_backend e backend a self = (Ok (), self') →
  ∃ my_backend,
    find_my_backend e backend = Ok my_backend
    ∧ check_operational e backend = Ok ()
    ∧ self' = {| _backend := Some my_backend;
                 _execute_config :=
                   make_execute_config my_backend a (_random_seed self);
                 _qjob_config := qjob_config_for my_backend a;
                 _random_seed := _random_seed self;
                 _random := _random self;
                 _show_circuit_summary := _show_circuit_summary self;
                 _has_shared_circuits := _has_shared_circuits self |}.
Proof.
  unfold setup_quantum_backend, qjob_config_for.
  destruct backend as [|name|b]; [done| |];
    (destruct (check_operational e _) as [[]|x]; [|done]);
    (destruct (find_my_backend e _) as [my_backend|x]; [|done]);
    intros [= <-]; exists my_backend; (repeat split);
    destruct (conf_local my_backend); reflexivity.
Qed.

(** The converse: when the check passes and a backend is found, setup
    returns. *)
Lemma setup_ok_intro (e : env) (backend : backend_ref) (a : setup_args)
    (self : QuantumAlgorithm) (my_backend : BaseBackend) :
  check_operational e backend = Ok () →
  find_my_backend e backend = Ok my_backend →
  setup_quantum_backend e backend a self
  = (Ok (),
     {| _backend := Some my_backend;
        _execute_config := make_execute_config my_backend a (_random_seed self);
        _qjob_config := qjob_config_for my_backend a;
        _random_seed := _random_seed self;
        _random := _random self;
        _show_circuit_summary := _show_circuit_summary self;
        _has_shared_circuits := _has_shared_circuits self |}).
Proof.
  intros Hc Hf. unfold setup_quantum_backend, qjob_config_for.
  destruct backend as [|name|b]; [done| |];
    rewrite Hc, Hf; destruct (conf_local my_backend); reflexivity.
Qed.

(** A live handle is taken as it is: setup always returns. *)
Lemma setup_handle_ok (e : env) (b : BaseBackend) (a : setup_args)
    (self : QuantumAlgorithm) :
  fst (setup_quantum_backend e (RefHandle b) a self) = Ok ()
  ∧ _backend (snd (setup_quantum_backend e (RefHandle b) a self)) = Some b.
Proof. by rewrite (setup_ok_intro e (RefHandle b) a self b). Qed.

Lemma setup_keeps_random (e : env) (backend : backend_ref) (a : setup_args)
    (self : QuantumAlgorithm) :
  _random (snd (setup_quantum_backend e backend a self)) = _random self.
Proof.
  unfold setup_quantum_backend.
  destruct backend as [|name|b]; [done| |];
    (destruct (check_operational e _) as [[]|x]; [|done]);
    (destruct (find_my_backend e _) as [my_backend|x]; [|done]);
    destruct (conf_local my_backend); reflexivity.
Qed.

(** C5: on a backend whose name starts with [statevector], the shots
    stored are 1, whatever the caller asked for. *)
Theorem statevector_shots_one (e : env) (backend : backend_ref)
    (a : setup_args) (self self' : QuantumAlgorithm) :
  setup_quantum_backend e backend a self = (Ok (), self') →
  is_statevector_backend (_backend self') = true →
  _execute_config self' !! "shots" = Some (VInt 1).
Proof.
  intros H Hsv. apply setup_ok_inv in H as (b & _ & _ & ->).
  cbn [_backend _execute_config] in *.
  unfold make_execute_config. rewrite Hsv. cbn [list_to_map foldr].
  apply lookup_insert_eq.
Qed.

(** C8: [wait] is absent from [_qjob_config] on a local backend, and
    holds the caller's value on any other. *)
Theorem wait_dropped_iff_local (e : env) (backend : backend_ref)
    (a : setup_args) (self self' : QuantumAlgorithm) (b : BaseBackend) :
  setup_quantum_backend e backend a self = (Ok (), self') →
  _backend self' = Some b →
  _qjob_config self' !! "wait"
  = if conf_local b then None else Some (wait a).
Proof.
  intros H Hb. apply setup_ok_inv in H as (b' & _ & _ & ->).
  cbn [_backend _qjob_config] in *. injection Hb as ->.
  unfold qjob_config_for. cbn [list_to_map foldr].
  destruct (conf_local b).
  - apply lookup_delete_eq.
  - rewrite lookup_insert_ne by done. apply lookup_insert_eq.
Qed.

Lemma statevector_shots_one_witness :
  setup_quantum_backend local_only (RefName "statevector_simulator")
    args_4096_shots __init__
  = (Ok (),
     snd (setup_quantum_backend local_only (RefName "statevector_simulator")
            args_4096_shots __init__))
  ∧ is_statevector_backend
      (_backend
         (snd (setup_quantum_backend local_only
                 (RefName "statevector_simulator") args_4096_shots __init__)))
    = true
  ∧ _execute_config
      (snd (setup_quantum_backend local_only
              (RefName "statevector_simulator") args_4096_shots __init__))
    !! "shots" = Some (VInt 1).
Proof.
  set (r := setup_quantum_backend _ _ _ _).
  assert (r = (Ok (), snd r)) as H by (vm_compute; reflexivity).
  assert (is_statevector_backend (_backend (snd r)) = true) as Hsv
    by (vm_compute; reflexivity).
  split; [exact H|]. split; [exact Hsv|].
  exact (statevector_shots_one local_only _ args_4096_shots __init__
           (snd r) H Hsv).
Defined.

Lemma wait_dropped_iff_local_witness :
  (setup_quantum_backend remote_overlap (RefName "ibmqx4") default_args __init__
   = (Ok (),
      snd (setup_quantum_backend remote_overlap (RefName "ibmqx4")
             default_args __init__))
   ∧ _backend (snd (setup_quantum_backend remote_overlap (RefName "ibmqx4")
                      default_args __init__)) = Some ibmqx4
   ∧ _qjob_config (snd (setup_quantum_backend remote_overlap (RefName "ibmqx4")
                          default_args __init__)) !! "wait" = Some (VInt 5))
  ∧ (setup_quantum_backend remote_overlap (RefName "qasm_simulator")
       default_args __init__
     = (Ok (),
        snd (setup_quantum_backend remote_overlap (RefName "qasm_simulator")
               default_args __init__))
     ∧ _backend (snd (setup_quantum_backend remote_overlap
                        (RefName "qasm_simulator") default_args __init__))
       = Some qasm_simulator
     ∧ _qjob_config (snd (setup_quantum_backend remote_overlap
                            (RefName "qasm_simulator") default_args __init__))
       !! "wait" = None).
Proof.
  set (r := setup_quantum_backend _ (RefName "ibmqx4") _ _).
  set (r' := setup_quantum_backend _ (RefName "qasm_simulator") _ _).
  assert (r = (Ok (), snd r)) as H by (vm_compute; reflexivity).
  assert (_backend (snd r) = Some ibmqx4) as Hb by (vm_compute; reflexivity).
  assert (r' = (Ok (), snd r')) as H' by (vm_compute; reflexivity).
  assert (_backend (snd r') = Some qasm_simulator) as Hb'
    by (vm_compute; reflexivity).
  split; (split; [eassumption|]); (split; [eassumption|]).
  - exact (wait_dropped_iff_local remote_overlap _ default_args __init__
             (snd r) ibmqx4 H Hb).
  - exact (wait_dropped_iff_local remote_overlap _ default_args __init__
             (snd r') qasm_simulator H' Hb').
Defined.

(** *** Basis gates *)

Lemma string_length_app (s1 s2 : string) :
  String.length (s1 ++ s2) = (String.length s1 + String.length s2)%nat.
Proof. induction s1 as [|c s1 IH]; simpl; [done|]. by rewrite IH. Qed.

Lemma repr_char_length (q c : ascii) :
  (1 ≤ String.length (repr_char q c))%nat.
Proof. unfold repr_char. repeat case_match; simpl; lia. Qed.

Lemma repr_chars_length (q : ascii) (s : string) :
  (String.length s ≤ String.length (repr_chars q s))%nat.
Proof.
  induction s as [|c s IH]; simpl; [done|].
  rewrite string_length_app. pose proof (repr_char_length q c). lia.
Qed.

Lemma repr_str_length (s : string) :
  (String.length s + 2 ≤ String.length (repr_str s))%nat.
Proof.
  unfold repr_str. cbn [String.length]. rewrite string_length_app.
  cbn [String.length].
  pose proof (repr_chars_length
                (if contains_char squote s && negb (contains_char dquote s)
                 then dquote else squote) s).
  lia.
Qed.

Lemma comma_join_shorter (names : list string) :
  (String.length (comma_join names)
   ≤ String.length (String.concat ", " (map repr_str names)))%nat.
Proof.
  unfold comma_join. induction names as [|n names IH]; [done|].
  pose proof (repr_str_length n).
  destruct names as [|m names]; [cbn [String.concat map]; lia|].
  change (String.concat "," (n :: m :: names))
    with (n ++ "," ++ String.concat "," (m :: names)).
  change (String.concat ", " (map repr_str (n :: m :: names)))
    with (repr_str n ++ ", " ++ String.concat ", " (map repr_str (m :: names))).
  rewrite !string_length_app. cbn [String.length]. lia.
Qed.

(** [str] of a list of names is never the comma-joined names: it is
    longer, by the brackets and the quotes at least. *)
Lemma str_of_list_is_not_comma_join (names : list string) :
  py_str (VList (map VStr names)) ≠ comma_join names.
Proof.
  intros H. apply (f_equal String.length) in H. revert H.
  cbn [py_str py_repr]. rewrite map_map.
  change (map (λ x, py_repr (VStr x)) names) with (map repr_str names).
  rewrite !string_length_app.
  cbn [String.length]. pose proof (comma_join_shorter names). lia.
Qed.

(** What setup stores under [basis_gates] when the value it resolved,
    the argument or else the backend's, is a list of names. *)
Lemma basis_gates_list_stored (e : env) (backend : backend_ref)
    (a : setup_args) (self self' : QuantumAlgorithm) (b : BaseBackend)
    (names : list string) :
  setup_quantum_backend e backend a self = (Ok (), self') →
  _backend self' = Some b →
  (if is_None (basis_gates a) then conf_basis_gates b else basis_gates a)
  = VList (map VStr names) →
  _execute_config self' !! "basis_gates"
  = Some (VStr (py_str (VList (map VStr names))))
  ∧ py_str (VList (map VStr names)) ≠ comma_join names.
Proof.
  intros H Hb Hl. apply setup_ok_inv in H as (b' & _ & _ & ->).
  cbn [_backend _execute_config] in *. injection Hb as ->.
  split; [|apply str_of_list_is_not_comma_join].
  unfold make_execute_config. rewrite Hl.
  cbn [isinstance_list list_to_map foldr].
  by rewrite !lookup_insert_ne, lookup_insert_eq by done.
Qed.

(** C3 at a backend whose basis gates are a list: the text stored is
    the [str] of the list, brackets and quotes included, not the names
    joined by commas. *)
Theorem basis_gates_list_stored_as_str :
  conf_basis_gates statevector_simulator
  = VList [VStr "u1"; VStr "u2"; VStr "u3"; VStr "cx"; VStr "id"]
  ∧ fst (setup_quantum_backend local_only (RefHandle statevector_simulator)
           default_args __init__) = Ok ()
  ∧ _execute_config
      (snd (setup_quantum_backend local_only (RefHandle statevector_simulator)
              default_args __init__)) !! "basis_gates"
    = Some (VStr "['u1', 'u2', 'u3', 'cx', 'id']")
  ∧ comma_join ["u1"; "u2"; "u3"; "cx"; "id"] = "u1,u2,u3,cx,id".
Proof. repeat split; vm_compute; reflexivity. Qed.

(** *** Aliases *)

(** No canonical name is itself an alias. *)
Lemma canonical_is_not_alias (alias canonical : string) :
  EQUIVALENT_BACKENDS !! alias = Some canonical →
  EQUIVALENT_BACKENDS !! canonical = None.
Proof.
  intros H. apply elem_of_list_to_map_2 in H.
  repeat (apply elem_of_cons in H as [[= -> ->]|H];
          [vm_compute; reflexivity|]).
  by apply not_elem_of_nil in H.
Qed.

Lemma check_operational_name (e : env) (name : string) (ops : list string) :
  register_and_get_operational_backends e = Ok ops →
  get_or_self EQUIVALENT_BACKENDS name ∈ ops →
  check_operational e (RefName name) = Ok ().
Proof.
  intros Hops Hin. unfold check_operational. rewrite Hops. unfold_bind.
  by rewrite bool_decide_eq_true_2.
Qed.

(** What setup does once the check has passed. *)
Lemma setup_after_check (e : env) (backend : backend_ref) (a : setup_args)
    (self : QuantumAlgorithm) :
  check_operational e backend = Ok () →
  match find_my_backend e backend with
  | Ok b =>
      ∃ self', setup_quantum_backend e backend a self = (Ok (), self')
               ∧ _backend self' = Some b
  | Raise x => fst (setup_quantum_backend e backend a self) = Raise x
  end.
Proof.
  intros Hc. destruct (find_my_backend e backend) as [b|x] eqn:Hf.
  - eexists. split; [by apply setup_ok_intro|done].
  - unfold setup_quantum_backend.
    destruct backend as [|name|b]; [by injection Hf as <-| |];
      by rewrite Hc, Hf.
Qed.

(** C2 fails as stated, in two ways.  The local provider here knows its
    backends by their own names.  [statevector_simulator] is operational
    and setup with it returns, while setup with its alias
    [statevector_simulator_py] raises.  Setup with [qasm_simulator_py]
    returns, with the backend of that name and not the one of its
    canonical name [qasm_simulator]. *)
Lemma alias_setup_differs_from_canonical :
  (EQUIVALENT_BACKENDS !! "statevector_simulator_py"
   = Some "statevector_simulator"
   ∧ EQUIVALENT_BACKENDS !! "qasm_simulator_py" = Some "qasm_simulator")
  ∧ register_and_get_operational_backends local_only
    = Ok ["statevector_simulator"; "qasm_simulator_py"; "qasm_simulator"]
  ∧ (fst (setup_quantum_backend local_only (RefName "statevector_simulator")
            default_args __init__) = Ok ()
     ∧ fst (setup_quantum_backend local_only
              (RefName "statevector_simulator_py") default_args __init__)
       = Raise (OtherException "backend not found"))
  ∧ (_backend (snd (setup_quantum_backend local_only (RefName "qasm_simulator")
                      default_args __init__)) = Some qasm_simulator
     ∧ _backend (snd (setup_quantum_backend local_only
                        (RefName "qasm_simulator_py") default_args __init__))
       = Some qasm_simulator_py
     ∧ qasm_simulator_py ≠ qasm_simulator).
Proof.
  repeat split; try (vm_compute; reflexivity). discriminate.
Qed.

(** C2, amended: when the canonical name of an alias is operational,
    setup with the alias and setup with the canonical name both pass
    the check against the operational set; each then looks the backend
    up under the name it was given, and returns with the handle found
    for that name or raises what the lookup raised. *)
Theorem alias_passes_check_then_given_name_is_looked_up (e : env)
    (alias canonical name : string) (ops : list string) (a : setup_args)
    (self : QuantumAlgorithm) :
  EQUIVALENT_BACKENDS !! alias = Some canonical →
  register_and_get_operational_backends e = Ok ops →
  canonical ∈ ops →
  name = alias ∨ name = canonical →
  check_operational e (RefName name) = Ok ()
  ∧ match find_my_backend e (RefName name) with
    | Ok b =>
        ∃ self', setup_quantum_backend e (RefName name) a self = (Ok (), self')
                 ∧ _backend self' = Some b
    | Raise x => fst (setup_quantum_backend e (RefName name) a self) = Raise x
    end.
Proof.
  intros Halias Hops Hin Hname.
  assert (check_operational e (RefName name) = Ok ()) as Hc.
  { apply (check_operational_name e name ops Hops). unfold get_or_self.
    destruct Hname as [-> | ->].
    - by rewrite Halias.
    - by rewrite (canonical_is_not_alias alias canonical Halias). }
  split; [exact Hc|]. by apply setup_after_check.
Qed.

Lemma alias_passes_check_then_given_name_is_looked_up_witness :
  EQUIVALENT_BACKENDS !! "qasm_simulator_py" = Some "qasm_simulator"
  ∧ register_and_get_operational_backends local_only
    = Ok ["statevector_simulator"; "qasm_simulator_py"; "qasm_simulator"]
  ∧ "qasm_simulator"
    ∈ ["statevector_simulator"; "qasm_simulator_py"; "qasm_simulator"]
  ∧ check_operational local_only (RefName "qasm_simulator_py") = Ok ()
  ∧ ∃ self',
      setup_quantum_backend local_only (RefName "qasm_simulator_py")
        default_args __init__ = (Ok (), self')
      ∧ _backend self' = Some qasm_simulator_py.
Proof.
  assert (EQUIVALENT_BACKENDS !! "qasm_simulator_py" = Some "qasm_simulator")
    as Ha by (vm_compute; reflexivity).
  assert (register_and_get_operational_backends local_only
          = Ok ["statevector_simulator"; "qasm_simulator_py"; "qasm_simulator"])
    as Hops by (vm_compute; reflexivity).
  assert ("qasm_simulator"
          ∈ ["statevector_simulator"; "qasm_simulator_py"; "qasm_simulator"])
    as Hin by (right; right; left).
  split; [exact Ha|]. split; [exact Hops|]. split; [exact Hin|].
  exact (alias_passes_check_then_given_name_is_looked_up local_only
           "qasm_simulator_py" "qasm_simulator" "qasm_simulator_py" _
           default_args __init__ Ha Hops Hin (or_introl eq_refl)).
Defined.

(** ** Execution *)

(** C1 fails as stated: the runner raises with the summary on, and the
    summary is still on when the exception reaches the caller. *)
Lemma execute_raise_leaves_summary_on :
  _show_circuit_summary (enable_circuit_summary __init__) = true
  ∧ fst (execute runner_fails [Circuit 0] (enable_circuit_summary __init__))
    = Raise (OtherException "job failed")
  ∧ _show_circuit_summary
      (snd (execute runner_fails [Circuit 0] (enable_circuit_summary __init__)))
    = true.
Proof. repeat split. Qed.

(** C1, amended: when the runner returns, the summary is off after
    the call; when it raises, the call ends there and the instance,
    the summary with it, is as it was. *)
Theorem execute_summary_off_on_return (e : env)
    (circuits : list QuantumCircuit) (self : QuantumAlgorithm) :
  match fst (execute e circuits self) with
  | Ok result =>
      run_circuits e circuits (_backend self) (_execute_config self)
        (_qjob_config self) (_show_circuit_summary self)
        (has_shared_circuits self) = Ok result
      ∧ _show_circuit_summary (snd (execute e circuits self)) = false
  | Raise x =>
      run_circuits e circuits (_backend self) (_execute_config self)
        (_qjob_config self) (_show_circuit_summary self)
        (has_shared_circuits self) = Raise x
      ∧ snd (execute e circuits self) = self
  end.
Proof.
  unfold execute.
  destruct (run_circuits e circuits _ _ _ _ _) as [result|x]; cbn [fst snd].
  - split; [done|]. by destruct (_show_circuit_summary self) eqn:Hs.
  - done.
Qed.

(** C10: whether the runner returns or raises, execute leaves every
    attribute other than the summary flag as it was. *)
Theorem execute_frame (e : env) (circuits : list QuantumCircuit)
    (self : QuantumAlgorithm) :
  _backend (snd (execute e circuits self)) = _backend self
  ∧ _execute_config (snd (execute e circuits self)) = _execute_config self
  ∧ _qjob_config (snd (execute e circuits self)) = _qjob_config self
  ∧ _random_seed (snd (execute e circuits self)) = _random_seed self
  ∧ _random (snd (execute e circuits self)) = _random self
  ∧ _has_shared_circuits (snd (execute e circuits self))
    = _has_shared_circuits self.
Proof.
  unfold execute.
  destruct (run_circuits e circuits _ _ _ _ _) as [result|x]; cbn [fst snd];
    [destruct (_show_circuit_summary self)|]; done.
Qed.

(** ** The random source *)

Lemma execute_keeps_random (e : env) (circuits : list QuantumCircuit)
    (self : QuantumAlgorithm) :
  _random (snd (execute e circuits self)) = _random self.
Proof.
  unfold execute.
  destruct (run_circuits e circuits _ _ _ _ _) as [result|x]; cbn [snd];
    [destruct (_show_circuit_summary self)|]; done.
Qed.

Lemma do_call_other (c : call) (h : store) (self : QuantumAlgorithm) :
  is_call_random c = false →
  ∃ self', do_call c (h, self) = (None, (h, self'))
           ∧ _random self' = _random self.
Proof.
  intros Hc. destruct c as [seed|np| | |b|e backend a|e circuits];
    cbn [do_call]; try done; eexists; (split; [reflexivity|]); try done.
  - apply setup_keeps_random.
  - apply execute_keeps_random.
Qed.

(** An access on an instance that has no source yet. *)
Lemma random_first_access (np : value → outcome unit) (h : store)
    (self : QuantumAlgorithm) :
  _random self = None →
  random np h self
  = if is_None (_random_seed self)
    then (Ok np_random, h, set_random (Some np_random) self)
    else match np (_random_seed self) with
         | Ok _ =>
             (Ok (RandomState (List.length h)),
              (h ++ [_random_seed self])%list,
              set_random (Some (RandomState (List.length h))) self)
         | Raise x => (Raise x, h, self)
         end.
Proof.
  intros Hr. unfold random, new_RandomState. rewrite Hr.
  destruct (is_None (_random_seed self)); [done|].
  by destruct (np (_random_seed self)).
Qed.

(** While no source is stored, a call that is not an access that
    returns leaves the store as it is and stores no source. *)
Lemma do_call_without_source (c : call) (h : store) (self : QuantumAlgorithm) :
  _random self = None →
  match (do_call c (h, self)).1 with
  | Some (Ok _) => True
  | _ => (do_call c (h, self)).2.1 = h
         ∧ _random (do_call c (h, self)).2.2 = None
  end.
Proof.
  intros Hr. destruct (is_call_random c) eqn:Hc.
  - destruct c as [|np| | | | |]; try done. cbn [do_call].
    rewrite (random_first_access np h self Hr).
    destruct (is_None (_random_seed self)); [done|].
    by destruct (np (_random_seed self)).
  - destruct (do_call_other c h self Hc) as (self' & -> & Hr').
    cbn [fst snd]. split; [done|congruence].
Qed.

(** Until an access returns nothing is created. *)
Lemma do_calls_without_source (cs : list call) (h : store)
    (self : QuantumAlgorithm) :
  _random self = None →
  forallb raised (do_calls cs (h, self)).1 = true →
  ∃ self', (do_calls cs (h, self)).2 = (h, self') ∧ _random self' = None.
Proof.
  revert self. induction cs as [|c cs IH]; intros self Hr Hcs.
  - by exists self.
  - cbn [do_calls] in *.
    pose proof (do_call_without_source c h self Hr) as H1.
    destruct (do_call c (h, self)) as [r [h1 self1]]. cbn [fst snd] in H1.
    assert (h1 = h ∧ _random self1 = None) as [-> Hr1].
    { destruct r as [[r|x]|]; [|done..].
      by destruct (do_calls cs (h1, self1)) as [rs st2]. }
    specialize (IH self1 Hr1).
    destruct (do_calls cs (h, self1)) as [rs st2]. cbn [fst snd] in *.
    apply IH. by destruct r as [[r|x]|].
Qed.

(** Once a source is stored, every call leaves it and the store as
    they are, and an access returns it. *)
Lemma do_call_after_first_access (c : call) (h : store)
    (self : QuantumAlgorithm) (r : random_source) :
  _random self = Some r →
  ∃ self', do_call c (h, self)
           = ((if is_call_random c then Some (Ok r) else None), (h, self'))
           ∧ _random self' = Some r.
Proof.
  intros Hr. destruct (is_call_random c) eqn:Hc.
  - destruct c; try done. exists self. cbn [do_call]. unfold random.
    by rewrite Hr.
  - destruct (do_call_other c h self Hc) as (self' & H & Hr').
    exists self'. split; [done|congruence].
Qed.

Lemma do_calls_after_first_access (cs : list call) (h : store)
    (self : QuantumAlgorithm) (r : random_source) :
  _random self = Some r →
  ∃ self', (do_calls cs (h, self)).2 = (h, self')
           ∧ Forall (eq (Ok r)) (do_calls cs (h, self)).1
           ∧ _random self' = Some r.
Proof.
  revert self. induction cs as [|c cs IH]; intros self Hr.
  - by exists self.
  - destruct (do_call_after_first_access c h self r Hr) as (self1 & H1 & Hr1).
    destruct (IH self1 Hr1) as (self2 & H2 & Hrs & Hr2).
    cbn [do_calls]. rewrite H1.
    destruct (do_calls cs (h, self1)) as [rs st2]. cbn [fst snd] in *.
    exists self2. split; [done|]. split; [|done].
    destruct (is_call_random c); auto.
Qed.

(** C9 fails as stated: numpy refuses the seed -1, so the first access
    raises and creates nothing; the seed is then changed, and the next
    access builds the source, from the new seed. *)
Lemma random_refused_seed_creates_nothing :
  (do_calls [call_set_random_seed (VInt (-1)); call_random numpy_RandomState]
     ([], __init__)).1
  = [Raise (OtherException "ValueError: Seed must be between 0 and 2**32 - 1")]
  ∧ (do_calls [call_set_random_seed (VInt (-1)); call_random numpy_RandomState]
       ([], __init__)).2
    = ([], set_random_seed (VInt (-1)) __init__)
  ∧ (do_calls [call_set_random_seed (VInt (-1)); call_random numpy_RandomState;
               call_set_random_seed (VInt 7); call_random numpy_RandomState]
       ([], __init__)).1
    = [Raise (OtherException "ValueError: Seed must be between 0 and 2**32 - 1");
       Ok (RandomState 0)]
  ∧ (do_calls [call_set_random_seed (VInt (-1)); call_random numpy_RandomState;
               call_set_random_seed (VInt 7); call_random numpy_RandomState]
       ([], __init__)).2.1
    = [VInt 7].
Proof. repeat split. Qed.

(** C9, amended: from a new instance, as long as no access to [random]
    has returned (there was none, or each raised), no source is stored
    and the store is untouched.  An access then returns [np.random] when
    the seed is [None]; with a seed that [RandomState] takes it returns a
    new [RandomState] built from that seed; with a seed that
    [RandomState] refuses it raises what the constructor raised and
    leaves the store and the instance as they were.  Once an access has
    returned a source, every later access returns that same source,
    whatever calls come between, a change of seed among them, and the
    store is never written again. *)
Theorem random_created_by_first_returning_access_then_kept (h : store)
    (np : value → outcome unit) (before after : list call) :
  forallb raised (do_calls before (h, __init__)).1 = true →
  ∃ self0,
    (do_calls before (h, __init__)).2 = (h, self0)
    ∧ _random self0 = None
    ∧ match (if is_None (_random_seed self0) then Ok ()
             else np (_random_seed self0)) with
      | Raise x => random np h self0 = (Raise x, h, self0)
      | Ok _ =>
          ∃ r h1 self1 self2,
            random np h self0 = (Ok r, h1, self1)
            ∧ (if is_None (_random_seed self0)
               then r = np_random ∧ h1 = h
               else r = RandomState (List.length h)
                    ∧ h1 = (h ++ [_random_seed self0])%list)
            ∧ (do_calls after (h1, self1)).2 = (h1, self2)
            ∧ Forall (eq (Ok r)) (do_calls after (h1, self1)).1
            ∧ _random self2 = Some r
      end.
Proof.
  intros Hb.
  destruct (do_calls_without_source before h __init__ eq_refl Hb)
    as (self0 & H0 & Hr0).
  exists self0. split; [exact H0|]. split; [exact Hr0|].
  rewrite (random_first_access np h self0 Hr0).
  destruct (is_None (_random_seed self0)).
  - destruct (do_calls_after_first_access after h
                (set_random (Some np_random) self0) np_random eq_refl)
      as (self2 & H2 & Hrs & Hr2).
    by exists np_random, h, (set_random (Some np_random) self0), self2.
  - destruct (np (_random_seed self0)) as [[]|x]; [|done].
    destruct (do_calls_after_first_access after
                (h ++ [_random_seed self0])%list
                (set_random (Some (RandomState (List.length h))) self0)
                (RandomState (List.length h)) eq_refl)
      as (self2 & H2 & Hrs & Hr2).
    by eexists _, _, _, self2.
Qed.

Lemma random_created_by_first_returning_access_then_kept_witness :
  forallb raised
    (do_calls [call_set_random_seed (VInt (-1)); call_random numpy_RandomState;
               call_set_random_seed (VInt 42)] ([VInt 1], __init__)).1 = true
  ∧ ∃ self0,
      (do_calls [call_set_random_seed (VInt (-1));
                 call_random numpy_RandomState;
                 call_set_random_seed (VInt 42)] ([VInt 1], __init__)).2
      = ([VInt 1], self0)
      ∧ _random self0 = None
      ∧ match (if is_None (_random_seed self0) then Ok ()
               else numpy_RandomState (_random_seed self0)) with
        | Raise x =>
            random numpy_RandomState [VInt 1] self0 = (Raise x, [VInt 1], self0)
        | Ok _ =>
            ∃ r h1 self1 self2,
              random numpy_RandomState [VInt 1] self0 = (Ok r, h1, self1)
              ∧ (if is_None (_random_seed self0)
                 then r = np_random ∧ h1 = [VInt 1]
                 else r = RandomState (List.length [VInt 1])
                      ∧ h1 = ([VInt 1] ++ [_random_seed self0])%list)
              ∧ (do_calls [call_random numpy_RandomState;
                           call_set_random_seed (VInt (-1));
                           call_random numpy_RandomState;
                           call_execute runner_fails [Circuit 0];
                           call_random numpy_RandomState] (h1, self1)).2
                = (h1, self2)
              ∧ Forall (eq (Ok r))
                  (do_calls [call_random numpy_RandomState;
                             call_set_random_seed (VInt (-1));
                             call_random numpy_RandomState;
                             call_execute runner_fails [Circuit 0];
                             call_random numpy_RandomState] (h1, self1)).1
              ∧ _random self2 = Some r
        end.
Proof.
  split; [reflexivity|].
  exact (random_created_by_first_returning_access_then_kept [VInt 1]
           numpy_RandomState
           [call_set_random_seed (VInt (-1)); call_random numpy_RandomState;
            call_set_random_seed (VInt 42)]
           [call_random numpy_RandomState; call_set_random_seed (VInt (-1));
            call_random numpy_RandomState;
            call_execute runner_fails [Circuit 0];
            call_random numpy_RandomState]
           eq_refl).
Defined.

(** * Further properties *)

(** ** How setup fails *)

Lemma setup_check_fails (e : env) (name : string) (ops : list string)
    (a : setup_args) (self : QuantumAlgorithm) :
  register_and_get_operational_backends e = Ok ops →
  get_or_self EQUIVALENT_BACKENDS name ∉ ops →
  setup_quantum_backend e (RefName name) a self
  = (Raise (not_operational name ops), self).
Proof.
  intros Hops Hnot. unfold setup_quantum_backend, check_operational.
  rewrite Hops. unfold_bind. by rewrite bool_decide_eq_false_2.
Qed.

(** X1: a name whose canonical form is not operational makes setup
    raise the error that names it and lists the operational backends;
    no provider is asked for a handle and the instance is as it was. *)
Theorem setup_name_not_operational (e : env) (name : string)
    (ops : list string) (a : setup_args) (self : QuantumAlgorithm) :
  register_and_get_operational_backends e = Ok ops →
  get_or_self EQUIVALENT_BACKENDS name ∉ ops →
  setup_quantum_backend e (RefName name) a self
  = (Raise (not_operational name ops), self).
Proof. apply setup_check_fails. Qed.

Lemma setup_name_not_operational_witness :
  register_and_get_operational_backends local_only
  = Ok ["statevector_simulator"; "qasm_simulator_py"; "qasm_simulator"]
  ∧ (get_or_self EQUIVALENT_BACKENDS "nonexistent_backend"
     ∉ ["statevector_simulator"; "qasm_simulator_py"; "qasm_simulator"])
  ∧ setup_quantum_backend local_only (RefName "nonexistent_backend")
      default_args __init__
    = (Raise (not_operational "nonexistent_backend"
                ["statevector_simulator"; "qasm_simulator_py"; "qasm_simulator"]),
       __init__).
Proof.
  assert (register_and_get_operational_backends local_only
          = Ok ["statevector_simulator"; "qasm_simulator_py"; "qasm_simulator"])
    as Hops by (vm_compute; reflexivity).
  assert (get_or_self EQUIVALENT_BACKENDS "nonexistent_backend"
          ∉ ["statevector_simulator"; "qasm_simulator_py"; "qasm_simulator"])
    as Hnot.
  { apply (bool_decide_eq_false_1 _). vm_compute. reflexivity. }
  split; [exact Hops|]. split; [exact Hnot|].
  exact (setup_name_not_operational local_only "nonexistent_backend" _
           default_args __init__ Hops Hnot).
Defined.

(** X2: an alias is judged by its canonical name alone.  When the
    canonical name is not operational, setup with the alias raises, also
    when the alias itself is among the operational backends. *)
Theorem setup_alias_needs_canonical (e : env) (alias canonical : string)
    (ops : list string) (a : setup_args) (self : QuantumAlgorithm) :
  EQUIVALENT_BACKENDS !! alias = Some canonical →
  register_and_get_operational_backends e = Ok ops →
  alias ∈ ops →
  canonical ∉ ops →
  setup_quantum_backend e (RefName alias) a self
  = (Raise (not_operational alias ops), self).
Proof.
  intros Ha Hops _ Hnot. apply setup_check_fails; [done|].
  unfold get_or_self. by rewrite Ha.
Qed.

Lemma setup_alias_needs_canonical_witness :
  EQUIVALENT_BACKENDS !! "qasm_simulator_py" = Some "qasm_simulator"
  ∧ register_and_get_operational_backends python_only = Ok ["qasm_simulator_py"]
  ∧ "qasm_simulator_py" ∈ ["qasm_simulator_py"]
  ∧ ("qasm_simulator" ∉ ["qasm_simulator_py"])
  ∧ setup_quantum_backend python_only (RefName "qasm_simulator_py")
      default_args __init__
    = (Raise (not_operational "qasm_simulator_py" ["qasm_simulator_py"]),
       __init__).
Proof.
  assert (EQUIVALENT_BACKENDS !! "qasm_simulator_py" = Some "qasm_simulator")
    as Ha by (vm_compute; reflexivity).
  assert (register_and_get_operational_backends python_only
          = Ok ["qasm_simulator_py"]) as Hops by (vm_compute; reflexivity).
  assert ("qasm_simulator_py" ∈ ["qasm_simulator_py"]) as Hin by left.
  assert ("qasm_simulator" ∉ ["qasm_simulator_py"]) as Hnot.
  { apply (bool_decide_eq_false_1 _). vm_compute. reflexivity. }
  split; [exact Ha|]. split; [exact Hops|]. split; [exact Hin|].
  split; [exact Hnot|].
  exact (setup_alias_needs_canonical python_only "qasm_simulator_py"
           "qasm_simulator" _ default_args __init__ Ha Hops Hin Hnot).
Defined.

(** X3: what a setup that raises leaves behind.  Either it failed before
    the lookup (no backend given, or the check raised) and the instance
    is as it was, or the lookup failed and [_qjob_config], and nothing
    else, has already been replaced by the new timeout and wait. *)
Theorem setup_raise_effect (e : env) (backend : backend_ref)
    (a : setup_args) (self : QuantumAlgorithm) (x : exn) :
  fst (setup_quantum_backend e backend a self) = Raise x →
  (snd (setup_quantum_backend e backend a self) = self
   ∧ ((backend = RefNone ∧ x = AquaError "Missing algorithm backend")
      ∨ check_operational e backend = Raise x))
  ∨ (snd (setup_quantum_backend e backend a self)
     = set_qjob_config (first_qjob_config a) self
     ∧ check_operational e backend = Ok ()
     ∧ find_my_backend e backend = Raise x).
Proof.
  unfold setup_quantum_backend, first_qjob_config.
  destruct backend as [|name|b].
  - cbn [fst snd]. intros [= <-]. left. split; [done|]. by left.
  - destruct (check_operational e (RefName name)) as [[]|y]; cbn [fst snd].
    + destruct (find_my_backend e (RefName name)) as [my_backend|y];
        cbn [fst snd]; [done|].
      intros [= <-]. by right.
    + intros [= <-]. left. split; [done|]. by right.
  - destruct (check_operational e (RefHandle b)) as [[]|y]; cbn [fst snd].
    + destruct (find_my_backend e (RefHandle b)) as [my_backend|y];
        cbn [fst snd]; [done|].
      intros [= <-]. by right.
    + intros [= <-]. left. split; [done|]. by right.
Qed.

Lemma setup_raise_effect_witness :
  fst (setup_quantum_backend local_only (RefName "statevector_simulator_py")
         device_args __init__) = Raise (OtherException "backend not found")
  ∧ _qjob_config
      (snd (setup_quantum_backend local_only
              (RefName "statevector_simulator_py") device_args __init__))
    !! "wait" = Some (VInt 30)
  ∧ ((snd (setup_quantum_backend local_only
             (RefName "statevector_simulator_py") device_args __init__)
      = __init__
      ∧ ((RefName "statevector_simulator_py" = RefNone
          ∧ OtherException "backend not found"
            = AquaError "Missing algorithm backend")
         ∨ check_operational local_only (RefName "statevector_simulator_py")
           = Raise (OtherException "backend not found")))
     ∨ (snd (setup_quantum_backend local_only
               (RefName "statevector_simulator_py") device_args __init__)
        = set_qjob_config (first_qjob_config device_args) __init__
        ∧ check_operational local_only (RefName "statevector_simulator_py")
          = Ok ()
        ∧ find_my_backend local_only (RefName "statevector_simulator_py")
          = Raise (OtherException "backend not found"))).
Proof.
  split; [vm_compute; reflexivity|]. split; [vm_compute; reflexivity|].
  apply (setup_raise_effect local_only (RefName "statevector_simulator_py")
           device_args __init__ (OtherException "backend not found")).
  vm_compute. reflexivity.
Defined.

(** X4: setup never writes the seed, the random source or the two
    flags, whether it returns or raises. *)
Theorem setup_frame (e : env) (backend : backend_ref) (a : setup_args)
    (self : QuantumAlgorithm) :
  _random_seed (snd (setup_quantum_backend e backend a self)) = _random_seed self
  ∧ _random (snd (setup_quantum_backend e backend a self)) = _random self
  ∧ _show_circuit_summary (snd (setup_quantum_backend e backend a self))
    = _show_circuit_summary self
  ∧ _has_shared_circuits (snd (setup_quantum_backend e backend a self))
    = _has_shared_circuits self.
Proof.
  unfold setup_quantum_backend.
  destruct backend as [|name|b]; [done| |];
    (destruct (check_operational e _) as [[]|x]; [|done]);
    (destruct (find_my_backend e _) as [my_backend|x]; [|done]);
    destruct (conf_local my_backend); done.
Qed.

(** X5: a live handle is trusted.  Setup with one returns whatever the
    collaborators would answer, none of them being asked, and stores that
    very handle. *)
Theorem setup_handle_ignores_collaborators (e e' : env) (b : BaseBackend)
    (a : setup_args) (self : QuantumAlgorithm) :
  setup_quantum_backend e (RefHandle b) a self
  = setup_quantum_backend e' (RefHandle b) a self
  ∧ fst (setup_quantum_backend e (RefHandle b) a self) = Ok ()
  ∧ _backend (snd (setup_quantum_backend e (RefHandle b) a self)) = Some b.
Proof.
  rewrite (setup_ok_intro e (RefHandle b) a self b) by done.
  by rewrite (setup_ok_intro e' (RefHandle b) a self b).
Qed.

(** ** How setup finds the backend *)

(** X6: when the local provider raises [KeyError] for the name, setup
    asks the remote provider, with the stored url and token (the empty
    string for a missing one), and returns with the handle it gives. *)
Theorem setup_remote_fallback_on_KeyError (e : env) (name msg : string)
    (p : Preferences) (b : BaseBackend) (a : setup_args)
    (self : QuantumAlgorithm) :
  check_operational e (RefName name) = Ok () →
  aer_get_backend e name = Raise (KeyError msg) →
  new_Preferences e = Ok p →
  ibmq_get_backend e name (get_url p "") (get_token p "") = Ok (Some b) →
  ∃ self', setup_quantum_backend e (RefName name) a self = (Ok (), self')
           ∧ _backend self' = Some b.
Proof.
  intros Hc Haer Hp Hibmq.
  assert (find_my_backend e (RefName name) = Ok b) as Hf.
  { unfold find_my_backend, get_backend. rewrite Haer, Hp. unfold_bind.
    by rewrite Hibmq. }
  eexists. split; [by apply setup_ok_intro|done].
Qed.

Lemma setup_remote_fallback_on_KeyError_witness :
  check_operational remote_overlap (RefName "ibmqx4") = Ok ()
  ∧ aer_get_backend remote_overlap "ibmqx4" = Raise (KeyError "ibmqx4")
  ∧ new_Preferences remote_overlap = Ok some_credentials
  ∧ ibmq_get_backend remote_overlap "ibmqx4" (get_url some_credentials "")
      (get_token some_credentials "") = Ok (Some ibmqx4)
  ∧ ∃ self', setup_quantum_backend remote_overlap (RefName "ibmqx4")
               device_args __init__ = (Ok (), self')
             ∧ _backend self' = Some ibmqx4.
Proof.
  assert (check_operational remote_overlap (RefName "ibmqx4") = Ok ()) as Hc
    by (vm_compute; reflexivity).
  split; [exact Hc|]. split; [reflexivity|]. split; [reflexivity|].
  split; [reflexivity|].
  exact (setup_remote_fallback_on_KeyError remote_overlap "ibmqx4" "ibmqx4"
           some_credentials ibmqx4 device_args __init__ Hc eq_refl eq_refl
           eq_refl).
Defined.

(** X7: any answer of the local provider other than a [KeyError] is
    final, the remote provider is not asked.  A handle is taken, [None]
    makes setup raise the error that names the backend, and another
    exception reaches the caller as it is; in the last two cases
    [_qjob_config] has been replaced already. *)
Theorem setup_local_answer_is_final (e : env) (name : string)
    (a : setup_args) (self : QuantumAlgorithm) :
  check_operational e (RefName name) = Ok () →
  match aer_get_backend e name with
  | Ok (Some b) =>
      fst (setup_quantum_backend e (RefName name) a self) = Ok ()
      ∧ _backend (snd (setup_quantum_backend e (RefName name) a self)) = Some b
  | Ok None =>
      setup_quantum_backend e (RefName name) a self
      = (Raise (AquaError ("Missing algorithm backend '" ++ name ++ "'")),
         set_qjob_config (first_qjob_config a) self)
  | Raise x =>
      is_KeyError x = false →
      setup_quantum_backend e (RefName name) a self
      = (Raise x, set_qjob_config (first_qjob_config a) self)
  end.
Proof.
  intros Hc. unfold first_qjob_config.
  destruct (aer_get_backend e name) as [[b|]|x] eqn:Haer.
  - rewrite (setup_ok_intro e (RefName name) a self b); [done|done|].
    unfold find_my_backend, get_backend. by rewrite Haer.
  - unfold setup_quantum_backend. rewrite Hc.
    unfold find_my_backend, get_backend. by rewrite Haer.
  - intros Hx. unfold setup_quantum_backend. rewrite Hc.
    unfold find_my_backend, get_backend. rewrite Haer.
    by destruct x.
Qed.

Lemma setup_local_answer_is_final_witness :
  check_operational
    (aer_lookup_answers (Raise (OtherException "simulator crashed")))
    (RefName "qasm_simulator") = Ok ()
  ∧ is_KeyError (OtherException "simulator crashed") = false
  ∧ setup_quantum_backend
      (aer_lookup_answers (Raise (OtherException "simulator crashed")))
      (RefName "qasm_simulator") device_args __init__
    = (Raise (OtherException "simulator crashed"),
       set_qjob_config (first_qjob_config device_args) __init__).
Proof.
  assert (check_operational
            (aer_lookup_answers (Raise (OtherException "simulator crashed")))
            (RefName "qasm_simulator") = Ok ()) as Hc
    by (vm_compute; reflexivity).
  split; [exact Hc|]. split; [reflexivity|].
  exact (setup_local_answer_is_final
           (aer_lookup_answers (Raise (OtherException "simulator crashed")))
           "qasm_simulator" device_args __init__ Hc eq_refl).
Defined.

(** ** What setup derives *)

(** Looks a key up in a dict literal. *)
Ltac lookup_literal :=
  cbn [list_to_map foldr fst snd];
  rewrite ?lookup_insert_ne by done;
  try apply lookup_insert_eq.

(** X8: the noise parameters asked for are stored for a simulator and
    replaced by [None] for any other backend. *)
Theorem noise_params_only_on_simulator (e : env) (backend : backend_ref)
    (a : setup_args) (self self' : QuantumAlgorithm) (b : BaseBackend) :
  setup_quantum_backend e backend a self = (Ok (), self') →
  _backend self' = Some b →
  _execute_config self' !! "config"
  = Some (VDict [("noise_params",
                  if conf_simulator b then noise_params a else VNone)]).
Proof.
  intros H Hb. apply setup_ok_inv in H as (b' & _ & _ & ->).
  cbn [_backend _execute_config] in *. injection Hb as ->.
  unfold make_execute_config. lookup_literal.
Qed.

Lemma noise_params_only_on_simulator_witness :
  ibmqx4_setup = (Ok (), snd ibmqx4_setup)
  ∧ _backend (snd ibmqx4_setup) = Some ibmqx4
  ∧ _execute_config (snd ibmqx4_setup) !! "config"
    = Some (VDict [("noise_params", VNone)]).
Proof.
  assert (ibmqx4_setup = (Ok (), snd ibmqx4_setup)) as H
    by (vm_compute; reflexivity).
  assert (_backend (snd ibmqx4_setup) = Some ibmqx4) as Hb
    by (vm_compute; reflexivity).
  split; [exact H|]. split; [exact Hb|].
  exact (noise_params_only_on_simulator remote_overlap _ device_args __init__
           (snd ibmqx4_setup) ibmqx4 H Hb).
Defined.

(** X9: on a backend whose name does not start with [statevector] the
    shots stored are the shots asked for. *)
Theorem shots_kept_off_statevector (e : env) (backend : backend_ref)
    (a : setup_args) (self self' : QuantumAlgorithm) :
  setup_quantum_backend e backend a self = (Ok (), self') →
  is_statevector_backend (_backend self') = false →
  _execute_config self' !! "shots" = Some (shots a).
Proof.
  intros H Hsv. apply setup_ok_inv in H as (b & _ & _ & ->).
  cbn [_backend _execute_config] in *.
  unfold make_execute_config. rewrite Hsv. lookup_literal.
Qed.

Lemma shots_kept_off_statevector_witness :
  ibmqx4_setup = (Ok (), snd ibmqx4_setup)
  ∧ is_statevector_backend (_backend (snd ibmqx4_setup)) = false
  ∧ _execute_config (snd ibmqx4_setup) !! "shots" = Some (VInt 2048).
Proof.
  assert (ibmqx4_setup = (Ok (), snd ibmqx4_setup)) as H
    by (vm_compute; reflexivity).
  assert (is_statevector_backend (_backend (snd ibmqx4_setup)) = false) as Hsv
    by (vm_compute; reflexivity).
  split; [exact H|]. split; [exact Hsv|].
  exact (shots_kept_off_statevector remote_overlap _ device_args __init__
           (snd ibmqx4_setup) H Hsv).
Defined.

(** X10: the coupling map stored is the one asked for, and the backend's
    own when [None] was given. *)
Theorem coupling_map_defaults_to_backend (e : env) (backend : backend_ref)
    (a : setup_args) (self self' : QuantumAlgorithm) (b : BaseBackend) :
  setup_quantum_backend e backend a self = (Ok (), self') →
  _backend self' = Some b →
  _execute_config self' !! "coupling_map"
  = Some (if is_None (coupling_map a) then conf_coupling_map b
          else coupling_map a).
Proof.
  intros H Hb. apply setup_ok_inv in H as (b' & _ & _ & ->).
  cbn [_backend _execute_config] in *. injection Hb as ->.
  unfold make_execute_config. lookup_literal.
Qed.

Lemma coupling_map_defaults_to_backend_witness :
  ibmqx4_setup = (Ok (), snd ibmqx4_setup)
  ∧ _backend (snd ibmqx4_setup) = Some ibmqx4
  ∧ _execute_config (snd ibmqx4_setup) !! "coupling_map"
    = Some (VList [VList [VInt 1; VInt 0]; VList [VInt 2; VInt 0]]).
Proof.
  assert (ibmqx4_setup = (Ok (), snd ibmqx4_setup)) as H
    by (vm_compute; reflexivity).
  assert (_backend (snd ibmqx4_setup) = Some ibmqx4) as Hb
    by (vm_compute; reflexivity).
  split; [exact H|]. split; [exact Hb|].
  exact (coupling_map_defaults_to_backend remote_overlap _ device_args
           __init__ (snd ibmqx4_setup) ibmqx4 H Hb).
Defined.

(** X11: basis gates that are not a list, a comma-separated string among
    them, are stored as they are: the ones asked for, and the backend's
    own when [None] was given. *)
Theorem basis_gates_not_list_kept (e : env) (backend : backend_ref)
    (a : setup_args) (self self' : QuantumAlgorithm) (b : BaseBackend)
    (gates : value) :
  setup_quantum_backend e backend a self = (Ok (), self') →
  _backend self' = Some b →
  (if is_None (basis_gates a) then conf_basis_gates b else basis_gates a)
  = gates →
  isinstance_list gates = false →
  _execute_config self' !! "basis_gates" = Some gates.
Proof.
  intros H Hb Hg Hl. apply setup_ok_inv in H as (b' & _ & _ & ->).
  cbn [_backend _execute_config] in *. injection Hb as ->.
  unfold make_execute_config. rewrite Hg, Hl. lookup_literal.
Qed.

Lemma basis_gates_not_list_kept_witness :
  ibmqx4_setup = (Ok (), snd ibmqx4_setup)
  ∧ _backend (snd ibmqx4_setup) = Some ibmqx4
  ∧ (if is_None (basis_gates device_args) then conf_basis_gates ibmqx4
     else basis_gates device_args) = VStr "u1,u2,u3,cx,id"
  ∧ isinstance_list (VStr "u1,u2,u3,cx,id") = false
  ∧ _execute_config (snd ibmqx4_setup) !! "basis_gates"
    = Some (VStr "u1,u2,u3,cx,id").
Proof.
  assert (ibmqx4_setup = (Ok (), snd ibmqx4_setup)) as H
    by (vm_compute; reflexivity).
  assert (_backend (snd ibmqx4_setup) = Some ibmqx4) as Hb
    by (vm_compute; reflexivity).
  split; [exact H|]. split; [exact Hb|]. split; [reflexivity|].
  split; [reflexivity|].
  exact (basis_gates_not_list_kept remote_overlap _ device_args __init__
           (snd ibmqx4_setup) ibmqx4 (VStr "u1,u2,u3,cx,id") H Hb eq_refl
           eq_refl).
Defined.

(** X12: the dict stored in [_execute_config] has the same ten keys
    after every setup that returns, with [qobj_id] at [None] and [seed]
    at the seed of the instance. *)
Theorem execute_config_keys (e : env) (backend : backend_ref)
    (a : setup_args) (self self' : QuantumAlgorithm) :
  setup_quantum_backend e backend a self = (Ok (), self') →
  dom (_execute_config self')
  = list_to_set ["shots"; "skip_transpiler"; "config"; "basis_gates";
                 "coupling_map"; "initial_layout"; "max_credits"; "seed";
                 "qobj_id"; "hpc"]
  ∧ _execute_config self' !! "qobj_id" = Some VNone
  ∧ _execute_config self' !! "seed" = Some (_random_seed self)
  ∧ _execute_config self' !! "skip_transpiler" = Some (skip_transpiler a)
  ∧ _execute_config self' !! "initial_layout" = Some (initial_layout a)
  ∧ _execute_config self' !! "max_credits" = Some (max_credits a)
  ∧ _execute_config self' !! "hpc" = Some (hpc_params a).
Proof.
  intros H. apply setup_ok_inv in H as (b & _ & _ & ->).
  cbn [_execute_config]. unfold make_execute_config.
  split; [by rewrite dom_list_to_map_L|].
  repeat split; lookup_literal.
Qed.

Lemma execute_config_keys_witness :
  ibmqx4_setup = (Ok (), snd ibmqx4_setup)
  ∧ dom (_execute_config (snd ibmqx4_setup))
    = list_to_set ["shots"; "skip_transpiler"; "config"; "basis_gates";
                   "coupling_map"; "initial_layout"; "max_credits"; "seed";
                   "qobj_id"; "hpc"]
  ∧ _execute_config (snd ibmqx4_setup) !! "qobj_id" = Some VNone
  ∧ _execute_config (snd ibmqx4_setup) !! "seed" = Some VNone
  ∧ _execute_config (snd ibmqx4_setup) !! "skip_transpiler" = Some (VBool true)
  ∧ _execute_config (snd ibmqx4_setup) !! "initial_layout"
    = Some (VDict [("q0", VInt 1)])
  ∧ _execute_config (snd ibmqx4_setup) !! "max_credits" = Some (VInt 3)
  ∧ _execute_config (snd ibmqx4_setup) !! "hpc" = Some VNone.
Proof.
  assert (ibmqx4_setup = (Ok (), snd ibmqx4_setup)) as H
    by (vm_compute; reflexivity).
  split; [exact H|].
  exact (execute_config_keys remote_overlap _ device_args __init__
           (snd ibmqx4_setup) H).
Defined.

(** X13: [timeout] is in [_qjob_config] after every setup that returns,
    with the caller's value, [None] included; the dict holds that key
    alone on a local backend, and [timeout] and [wait] on any other. *)
Theorem timeout_always_stored (e : env) (backend : backend_ref)
    (a : setup_args) (self self' : QuantumAlgorithm) (b : BaseBackend) :
  setup_quantum_backend e backend a self = (Ok (), self') →
  _backend self' = Some b →
  _qjob_config self' !! "timeout" = Some (timeout a)
  ∧ dom (_qjob_config self')
    = if conf_local b then {["timeout"]} else {["timeout"; "wait"]}.
Proof.
  intros H Hb. apply setup_ok_inv in H as (b' & _ & _ & ->).
  cbn [_backend _qjob_config] in *. injection Hb as ->.
  unfold qjob_config_for. cbn [list_to_map foldr fst snd].
  destruct (conf_local b).
  - split.
    + rewrite lookup_delete_ne by done. apply lookup_insert_eq.
    + rewrite dom_delete_L, !dom_insert_L, dom_empty_L. set_solver.
  - split; [apply lookup_insert_eq|].
    rewrite !dom_insert_L, dom_empty_L. set_solver.
Qed.

Lemma timeout_always_stored_witness :
  (ibmqx4_setup = (Ok (), snd ibmqx4_setup)
   ∧ _backend (snd ibmqx4_setup) = Some ibmqx4
   ∧ _qjob_config (snd ibmqx4_setup) !! "timeout" = Some (VInt 600)
   ∧ dom (_qjob_config (snd ibmqx4_setup)) = {["timeout"; "wait"]})
  ∧ (qasm_setup = (Ok (), snd qasm_setup)
     ∧ _backend (snd qasm_setup) = Some qasm_simulator
     ∧ _qjob_config (snd qasm_setup) !! "timeout" = Some (VInt 600)
     ∧ dom (_qjob_config (snd qasm_setup)) = {["timeout"]}).
Proof.
  assert (ibmqx4_setup = (Ok (), snd ibmqx4_setup)) as H
    by (vm_compute; reflexivity).
  assert (_backend (snd ibmqx4_setup) = Some ibmqx4) as Hb
    by (vm_compute; reflexivity).
  assert (qasm_setup = (Ok (), snd qasm_setup)) as H'
    by (vm_compute; reflexivity).
  assert (_backend (snd qasm_setup) = Some qasm_simulator) as Hb'
    by (vm_compute; reflexivity).
  split; (split; [eassumption|]); (split; [eassumption|]).
  - exact (timeout_always_stored remote_overlap _ device_args __init__
             (snd ibmqx4_setup) ibmqx4 H Hb).
  - exact (timeout_always_stored remote_overlap _ device_args __init__
             (snd qasm_setup) qasm_simulator H' Hb').
Defined.

(** X14: setup replaces what it derives and reads nothing of it back:
    run again with the same arguments, while the collaborators answer the
    same, it raises or returns as before and leaves the same instance. *)
Theorem setup_twice (e : env) (backend : backend_ref) (a : setup_args)
    (self : QuantumAlgorithm) :
  setup_quantum_backend e backend a
    (snd (setup_quantum_backend e backend a self))
  = setup_quantum_backend e backend a self.
Proof.
  unfold setup_quantum_backend.
  destruct backend as [|name|b]; [done| |];
    (destruct (check_operational e _) as [[]|x]; cbn [snd]; [|done]);
    (destruct (find_my_backend e _) as [my_backend|x]; cbn [snd]; [|done]);
    destruct (conf_local my_backend); reflexivity.
Qed.

(** X15: a seed set before setup is the one stored in [_execute_config];
    a seed set after setup changes the instance's seed and leaves the
    stored one as it is. *)
Theorem seed_stored_at_setup (e : env) (backend : backend_ref)
    (a : setup_args) (self self' : QuantumAlgorithm) (seed seed' : value) :
  setup_quantum_backend e backend a (set_random_seed seed self) = (Ok (), self') →
  _execute_config self' !! "seed" = Some seed
  ∧ random_seed (set_random_seed seed' self') = seed'
  ∧ _execute_config (set_random_seed seed' self') !! "seed" = Some seed.
Proof.
  intros H. apply setup_ok_inv in H as (b & _ & _ & ->).
  cbn [_execute_config set_random_seed random_seed _random_seed].
  unfold make_execute_config. repeat split; lookup_literal.
Qed.

Lemma seed_stored_at_setup_witness :
  setup_quantum_backend remote_overlap (RefName "ibmqx4") device_args
    (set_random_seed (VInt 42) __init__)
  = (Ok (),
     snd (setup_quantum_backend remote_overlap (RefName "ibmqx4") device_args
            (set_random_seed (VInt 42) __init__)))
  ∧ _execute_config
      (snd (setup_quantum_backend remote_overlap (RefName "ibmqx4") device_args
              (set_random_seed (VInt 42) __init__))) !! "seed"
    = Some (VInt 42)
  ∧ random_seed
      (set_random_seed (VInt 7)
         (snd (setup_quantum_backend remote_overlap (RefName "ibmqx4")
                 device_args (set_random_seed (VInt 42) __init__))))
    = VInt 7
  ∧ _execute_config
      (set_random_seed (VInt 7)
         (snd (setup_quantum_backend remote_overlap (RefName "ibmqx4")
                 device_args (set_random_seed (VInt 42) __init__)))) !! "seed"
    = Some (VInt 42).
Proof.
  set (r := setup_quantum_backend _ _ _ _).
  assert (r = (Ok (), snd r)) as H by (vm_compute; reflexivity).
  split; [exact H|].
  exact (seed_stored_at_setup remote_overlap _ device_args __init__ (snd r)
           (VInt 42) (VInt 7) H).
Defined.

(** ** More on discovery *)

(** X16: discovery raises only when the local provider's listing does,
    and then with that exception: nothing the preferences or the remote
    provider do can make it fail. *)
Theorem discovery_raises_iff_local_listing_does (e : env) (x : exn) :
  register_and_get_operational_backends e = Raise x ↔ aer_backends e = Raise x.
Proof.
  unfold register_and_get_operational_backends.
  destruct (aer_backends e) as [aer|y]; unfold_bind.
  - split; discriminate.
  - split; intros [= ->]; reflexivity.
Qed.

(** X17: without a stored url or token, or with an empty one, the remote
    provider is not contacted at all: whatever registration and listing
    would do, discovery returns the local names that start with no
    unsupported prefix, and only them. *)
Theorem discovery_without_credentials (e : env) (p : Preferences)
    (aer l : list string) :
  new_Preferences e = Ok p →
  pref_url p = None ∨ pref_url p = Some ""
  ∨ pref_token p = None ∨ pref_token p = Some "" →
  aer_backends e = Ok aer →
  register_and_get_operational_backends e = Ok l →
  ibmq_discovery e = Ok []
  ∧ NoDup l
  ∧ ∀ n, n ∈ l ↔
         n ∈ aer ∧ ∀ q, q ∈ UNSUPPORTED_BACKENDS → startswith n q = false.
Proof.
  intros Hp Hcred Haer Hl.
  assert (ibmq_discovery e = Ok []) as Hd.
  { unfold ibmq_discovery. rewrite Hp. unfold_bind.
    destruct (pref_url p) as [u|], (pref_token p) as [t|]; try done.
    destruct Hcred as [?|[[= ->]|[?|[= ->]]]]; try done.
    by rewrite andb_false_r. }
  split; [exact Hd|].
  rewrite (discovery_shape e aer Haer) in Hl. unfold ibmq_backends_found in Hl.
  rewrite Hd, app_nil_r in Hl. injection Hl as <-.
  split; [apply NoDup_elements|].
  intros n. by rewrite elem_of_elements, elem_of_supported_set, supported_true_iff.
Qed.

Lemma discovery_without_credentials_witness :
  new_Preferences offline_no_credentials = Ok no_credentials
  ∧ (pref_url no_credentials = None ∨ pref_url no_credentials = Some ""
     ∨ pref_token no_credentials = None ∨ pref_token no_credentials = Some "")
  ∧ aer_backends offline_no_credentials = Ok aer_names
  ∧ register_and_get_operational_backends offline_no_credentials
    = Ok ["statevector_simulator"; "qasm_simulator_py"; "qasm_simulator"]
  ∧ ibmq_discovery offline_no_credentials = Ok []
  ∧ NoDup ["statevector_simulator"; "qasm_simulator_py"; "qasm_simulator"]
  ∧ ∀ n, n ∈ ["statevector_simulator"; "qasm_simulator_py"; "qasm_simulator"] ↔
         n ∈ aer_names
         ∧ ∀ q, q ∈ UNSUPPORTED_BACKENDS → startswith n q = false.
Proof.
  assert (register_and_get_operational_backends offline_no_credentials
          = Ok ["statevector_simulator"; "qasm_simulator_py"; "qasm_simulator"])
    as Hl by (vm_compute; reflexivity).
  split; [reflexivity|]. split; [by left|]. split; [reflexivity|].
  split; [exact Hl|].
  exact (discovery_without_credentials offline_no_credentials no_credentials
           aer_names _ eq_refl (or_introl eq_refl) eq_refl Hl).
Defined.

(** X18: with a url and a token that are both non-empty, the account is
    registered with the token and the url, the remote provider is listed
    with the url and the token, and the names it gives end the result in
    the order given, after the local names. *)
Theorem discovery_with_credentials (e : env) (p : Preferences)
    (u t : string) (aer names : list string) :
  new_Preferences e = Ok p →
  pref_url p = Some u → pref_token p = Some t →
  u ≠ "" → t ≠ "" →
  ibmq_register e t u = Ok () →
  ibmq_backends e u t = Ok names →
  aer_backends e = Ok aer →
  ∃ local_names,
    register_and_get_operational_backends e = Ok (local_names ++ names)%list
    ∧ ∀ n, n ∈ local_names ↔
           n ∈ aer ∧ ∀ q, q ∈ UNSUPPORTED_BACKENDS → startswith n q = false.
Proof.
  intros Hp Hu Ht Hne1 Hne2 Hreg Hlist Haer.
  exists (elements (supported_set aer)). split.
  - rewrite (discovery_shape e aer Haer).
    unfold ibmq_backends_found, ibmq_discovery. rewrite Hp. unfold_bind.
    rewrite Hu, Ht. apply String.eqb_neq in Hne1, Hne2.
    rewrite Hne1, Hne2. cbn [negb andb]. by rewrite Hreg, Hlist.
  - intros n.
    by rewrite elem_of_elements, elem_of_supported_set, supported_true_iff.
Qed.

Lemma discovery_with_credentials_witness :
  new_Preferences remote_overlap = Ok some_credentials
  ∧ pref_url some_credentials = Some "https://quantum.example/api"
  ∧ pref_token some_credentials = Some "token"
  ∧ "https://quantum.example/api" ≠ ""
  ∧ "token" ≠ ""
  ∧ ibmq_register remote_overlap "token" "https://quantum.example/api" = Ok ()
  ∧ ibmq_backends remote_overlap "https://quantum.example/api" "token"
    = Ok ["ibmqx4"; "qasm_simulator"; "unitary_simulator"]
  ∧ aer_backends remote_overlap = Ok aer_names
  ∧ ∃ local_names,
      register_and_get_operational_backends remote_overlap
      = Ok (local_names ++ ["ibmqx4"; "qasm_simulator"; "unitary_simulator"])%list
      ∧ ∀ n, n ∈ local_names ↔
             n ∈ aer_names
             ∧ ∀ q, q ∈ UNSUPPORTED_BACKENDS → startswith n q = false.
Proof.
  assert ("https://quantum.example/api" ≠ "") as Hne1 by discriminate.
  assert ("token" ≠ "") as Hne2 by discriminate.
  split; [reflexivity|]. split; [reflexivity|]. split; [reflexivity|].
  split; [exact Hne1|]. split; [exact Hne2|]. split; [reflexivity|].
  split; [reflexivity|]. split; [reflexivity|].
  exact (discovery_with_credentials remote_overlap some_credentials _ _
           aer_names _ eq_refl eq_refl eq_refl Hne1 Hne2 eq_refl eq_refl
           eq_refl).
Defined.

(** X19: resolving an alias is idempotent: the name [EQUIVALENT_BACKENDS]
    gives for a name is given back for itself, so no name needs two
    steps to reach its canonical form. *)
Theorem alias_resolution_idempotent (name : string) :
  get_or_self EQUIVALENT_BACKENDS (get_or_self EQUIVALENT_BACKENDS name)
  = get_or_self EQUIVALENT_BACKENDS name.
Proof.
  unfold get_or_self.
  destruct (EQUIVALENT_BACKENDS !! name) as [canonical|] eqn:H; cbn [default];
    unfold id.
  - by rewrite (canonical_is_not_alias name canonical H).
  - by rewrite H.
Qed.

(** ** More on execution *)

Lemma execute_summary_off (e : env) (circuits : list QuantumCircuit)
    (self : QuantumAlgorithm) :
  _show_circuit_summary self = false →
  execute e circuits self
  = (run_circuits e circuits (_backend self) (_execute_config self)
       (_qjob_config self) false (_has_shared_circuits self), self).
Proof.
  intros H. unfold execute, has_shared_circuits. rewrite H.
  by destruct (run_circuits e circuits _ _ _ _ _).
Qed.

(** X20: the summary is shown once.  After [enable_circuit_summary], an
    execute whose runner returns has told the runner to show the
    summary; the next execute tells its runner not to, hands it the same
    backend and dicts, and leaves the instance as it found it. *)
Theorem summary_shown_once (e e' : env) (circuits circuits' : list QuantumCircuit)
    (self : QuantumAlgorithm) (result : Result) :
  fst (execute e circuits (enable_circuit_summary self)) = Ok result →
  run_circuits e circuits (_backend self) (_execute_config self)
    (_qjob_config self) true (_has_shared_circuits self) = Ok result
  ∧ execute e' circuits' (snd (execute e circuits (enable_circuit_summary self)))
    = (run_circuits e' circuits' (_backend self) (_execute_config self)
         (_qjob_config self) false (_has_shared_circuits self),
       snd (execute e circuits (enable_circuit_summary self))).
Proof.
  unfold execute at 1 3 4. unfold has_shared_circuits.
  cbn [enable_circuit_summary set_show_circuit_summary _backend _execute_config
       _qjob_config _show_circuit_summary _has_shared_circuits].
  destruct (run_circuits e circuits _ _ _ true _) as [r|x]; cbn [fst snd];
    [|done].
  intros [= ->]. split; [done|].
  by rewrite execute_summary_off.
Qed.

Lemma summary_shown_once_witness :
  fst (execute local_only [Circuit 0] (enable_circuit_summary __init__))
  = Ok (ResultObj 0)
  ∧ run_circuits local_only [Circuit 0] (_backend __init__)
      (_execute_config __init__) (_qjob_config __init__) true
      (_has_shared_circuits __init__) = Ok (ResultObj 0)
  ∧ execute runner_fails [Circuit 1; Circuit 2]
      (snd (execute local_only [Circuit 0] (enable_circuit_summary __init__)))
    = (run_circuits runner_fails [Circuit 1; Circuit 2] (_backend __init__)
         (_execute_config __init__) (_qjob_config __init__) false
         (_has_shared_circuits __init__),
       snd (execute local_only [Circuit 0] (enable_circuit_summary __init__))).
Proof.
  split; [reflexivity|].
  exact (summary_shown_once local_only runner_fails [Circuit 0]
           [Circuit 1; Circuit 2] __init__ (ResultObj 0) eq_refl).
Defined.

(** X21: after a setup that returned, execute hands the runner the
    handle setup found and the two dicts it derived, with the flags of
    the instance, and what the runner returns or raises is what execute
    returns or raises. *)
Theorem execute_uses_setup (e e' : env) (backend : backend_ref)
    (a : setup_args) (self self' : QuantumAlgorithm) (b : BaseBackend)
    (circuits : list QuantumCircuit) :
  setup_quantum_backend e backend a self = (Ok (), self') →
  _backend self' = Some b →
  fst (execute e' circuits self')
  = run_circuits e' circuits (Some b)
      (make_execute_config b a (_random_seed self)) (qjob_config_for b a)
      (_show_circuit_summary self) (_has_shared_circuits self).
Proof.
  intros H Hb. apply setup_ok_inv in H as (b' & _ & _ & ->).
  cbn [_backend] in Hb. injection Hb as ->.
  unfold execute, has_shared_circuits.
  cbn [_backend _execute_config _qjob_config _show_circuit_summary
       _has_shared_circuits].
  by destruct (run_circuits e' circuits _ _ _ _ _).
Qed.

Lemma execute_uses_setup_witness :
  ibmqx4_setup = (Ok (), snd ibmqx4_setup)
  ∧ _backend (snd ibmqx4_setup) = Some ibmqx4
  ∧ fst (execute runner_fails [Circuit 0] (snd ibmqx4_setup))
    = run_circuits runner_fails [Circuit 0] (Some ibmqx4)
        (make_execute_config ibmqx4 device_args (_random_seed __init__))
        (qjob_config_for ibmqx4 device_args)
        (_show_circuit_summary __init__) (_has_shared_circuits __init__).
Proof.
  assert (ibmqx4_setup = (Ok (), snd ibmqx4_setup)) as H
    by (vm_compute; reflexivity).
  assert (_backend (snd ibmqx4_setup) = Some ibmqx4) as Hb
    by (vm_compute; reflexivity).
  split; [exact H|]. split; [exact Hb|].
  exact (execute_uses_setup remote_overlap runner_fails _ device_args __init__
           (snd ibmqx4_setup) ibmqx4 [Circuit 0] H Hb).
Defined.

(** ** More on the random source *)

(** X22: two instances that have a seed which [RandomState] takes get
    two different sources on their first accesses, also when the seeds
    are equal, and the first source keeps its seed when the second is
    built; two instances without a seed both get [np.random], and
    nothing is built. *)
Theorem seeded_sources_are_private (np1 np2 : value → outcome unit)
    (h : store) (self1 self2 : QuantumAlgorithm) :
  _random self1 = None →
  _random self2 = None →
  is_None (_random_seed self1) = is_None (_random_seed self2) →
  (is_None (_random_seed self1) = false →
   np1 (_random_seed self1) = Ok () ∧ np2 (_random_seed self2) = Ok ()) →
  if is_None (_random_seed self1)
  then (random np1 h self1).1.1 = Ok np_random
       ∧ (random np2 (random np1 h self1).1.2 self2).1.1 = Ok np_random
       ∧ (random np2 (random np1 h self1).1.2 self2).1.2 = h
  else ∃ a1 a2,
         (random np1 h self1).1.1 = Ok (RandomState a1)
         ∧ (random np2 (random np1 h self1).1.2 self2).1.1 = Ok (RandomState a2)
         ∧ a1 ≠ a2
         ∧ (random np2 (random np1 h self1).1.2 self2).1.2 !! a1
           = Some (_random_seed self1)
         ∧ (random np2 (random np1 h self1).1.2 self2).1.2 !! a2
           = Some (_random_seed self2).
Proof.
  intros H1 H2 Hs Hnp.
  rewrite (random_first_access np1 h self1 H1).
  destruct (is_None (_random_seed self1)); cbn [fst snd].
  - rewrite (random_first_access np2 h self2 H2), <- Hs. done.
  - destruct (Hnp eq_refl) as [Hnp1 Hnp2]. rewrite Hnp1. cbn [fst snd].
    rewrite (random_first_access np2 _ self2 H2), <- Hs, Hnp2. cbn [fst snd].
    exists (List.length h), (List.length (h ++ [_random_seed self1])%list).
    rewrite length_app. cbn [List.length].
    split; [done|]. split; [done|]. split; [lia|]. split.
    + apply lookup_app_l_Some. by apply list_lookup_middle.
    + apply list_lookup_middle. rewrite length_app. cbn [List.length]. lia.
Qed.

Lemma seeded_sources_are_private_witness :
  _random (seeded 42) = None
  ∧ _random (seeded 42) = None
  ∧ is_None (_random_seed (seeded 42)) = is_None (_random_seed (seeded 42))
  ∧ numpy_RandomState (_random_seed (seeded 42)) = Ok ()
  ∧ ∃ a1 a2,
      (random numpy_RandomState [] (seeded 42)).1.1 = Ok (RandomState a1)
      ∧ (random numpy_RandomState
           (random numpy_RandomState [] (seeded 42)).1.2 (seeded 42)).1.1
        = Ok (RandomState a2)
      ∧ a1 ≠ a2
      ∧ (random numpy_RandomState
           (random numpy_RandomState [] (seeded 42)).1.2 (seeded 42)).1.2 !! a1
        = Some (_random_seed (seeded 42))
      ∧ (random numpy_RandomState
           (random numpy_RandomState [] (seeded 42)).1.2 (seeded 42)).1.2 !! a2
        = Some (_random_seed (seeded 42)).
Proof.
  split; [reflexivity|]. split; [reflexivity|]. split; [reflexivity|].
  split; [reflexivity|].
  exact (seeded_sources_are_private numpy_RandomState numpy_RandomState []
           (seeded 42) (seeded 42) eq_refl eq_refl eq_refl
           (λ _, conj eq_refl eq_refl)).
Defined.

(** ** The life of an instance *)

Lemma do_calls_invariant (P : QuantumAlgorithm → Prop) :
  (∀ c h self, P self → P (do_call c (h, self)).2.2) →
  ∀ cs h self, P self → P (do_calls cs (h, self)).2.2.
Proof.
  intros Hstep cs. induction cs as [|c cs IH]; intros h self HP; [done|].
  cbn [do_calls]. pose proof (Hstep c h self HP) as H1.
  destruct (do_call c (h, self)) as [r [h1 self1]]. cbn [snd] in H1.
  pose proof (IH h1 self1 H1) as H2.
  by destruct (do_calls cs (h1, self1)) as [rs [h2 self2]].
Qed.

Lemma setup_raise_untouched (e : env) (backend : backend_ref) (a : setup_args)
    (self : QuantumAlgorithm) :
  (∀ x, fst (setup_quantum_backend e backend a self) = Raise x →
        _backend (snd (setup_quantum_backend e backend a self)) = _backend self)
  ∧ (∀ x, fst (setup_quantum_backend e backend a self) = Raise x →
          _execute_config (snd (setup_quantum_backend e backend a self))
          = _execute_config self).
Proof.
  unfold setup_quantum_backend.
  destruct backend as [|name|b]; [done| |];
    (destruct (check_operational e _) as [[]|x]; [|done]);
    (destruct (find_my_backend e _) as [my_backend|x]; [|done]);
    cbn [fst]; split; intros y [=].
Qed.

Lemma setup_configured (e : env) (backend : backend_ref) (a : setup_args)
    (self : QuantumAlgorithm) :
  configured self → configured (snd (setup_quantum_backend e backend a self)).
Proof.
  intros HP.
  destruct (setup_quantum_backend e backend a self) as [[[]|x] self'] eqn:H.
  - apply setup_ok_inv in H as (b & _ & _ & ->). cbn [snd].
    unfold configured. cbn [_backend _execute_config]. by eexists _, _.
  - pose proof (setup_raise_untouched e backend a self) as (Hb & Hc).
    rewrite H in Hb, Hc. cbn [fst snd] in *.
    unfold configured in *. by rewrite (Hb x eq_refl), (Hc x eq_refl).
Qed.

Lemma other_calls_keep_configuration (c : call) (h : store)
    (self : QuantumAlgorithm) :
  is_call_setup c = false →
  _backend (do_call c (h, self)).2.2 = _backend self
  ∧ _execute_config (do_call c (h, self)).2.2 = _execute_config self
  ∧ _qjob_config (do_call c (h, self)).2.2 = _qjob_config self.
Proof.
  intros Hc. destruct c as [seed|np| | |b|e backend a|e circuits];
    try done; cbn [do_call snd].
  - unfold random, new_RandomState. destruct (_random self); [done|].
    destruct (is_None (_random_seed self)); [done|].
    by destruct (np (_random_seed self)).
  - unfold execute.
    destruct (run_circuits e circuits _ _ _ _ _); cbn [snd]; [|done].
    by destruct (_show_circuit_summary self).
Qed.

(** X23: the only call that writes the backend, [_execute_config] or
    [_qjob_config] is setup: the two setters, the summary switches, an
    access to [random] and execute leave all three as they were. *)
Theorem only_setup_writes_configuration (c : call) (h : store)
    (self : QuantumAlgorithm) :
  is_call_setup c = false →
  _backend (do_call c (h, self)).2.2 = _backend self
  ∧ _execute_config (do_call c (h, self)).2.2 = _execute_config self
  ∧ _qjob_config (do_call c (h, self)).2.2 = _qjob_config self.
Proof. apply other_calls_keep_configuration. Qed.

Lemma only_setup_writes_configuration_witness :
  is_call_setup (call_execute runner_fails [Circuit 0]) = false
  ∧ _backend (do_call (call_execute runner_fails [Circuit 0])
                ([], snd ibmqx4_setup)).2.2 = _backend (snd ibmqx4_setup)
  ∧ _execute_config (do_call (call_execute runner_fails [Circuit 0])
                       ([], snd ibmqx4_setup)).2.2
    = _execute_config (snd ibmqx4_setup)
  ∧ _qjob_config (do_call (call_execute runner_fails [Circuit 0])
                    ([], snd ibmqx4_setup)).2.2
    = _qjob_config (snd ibmqx4_setup).
Proof.
  split; [reflexivity|].
  exact (only_setup_writes_configuration (call_execute runner_fails [Circuit 0])
           [] (snd ibmqx4_setup) eq_refl).
Defined.

Lemma do_call_configured (c : call) (h : store) (self : QuantumAlgorithm) :
  configured self → configured (do_call c (h, self)).2.2.
Proof.
  intros HP. destruct (is_call_setup c) eqn:Hc.
  - destruct c; try done. cbn [do_call snd]. by apply setup_configured.
  - pose proof (other_calls_keep_configuration c h self Hc) as (Hb & He & _).
    unfold configured in *. by rewrite Hb, He.
Qed.

(** X24: in every instance that calls can reach from a new one, setups
    that failed among them, the stored [_execute_config] fits the stored
    backend: without a backend it is empty, with a statevector backend
    its shots are 1, and with a backend that is not a simulator its noise
    parameters are [None]. *)
Theorem reachable_instance_is_configured (cs : list call) (h : store) :
  match _backend (do_calls cs (h, __init__)).2.2 with
  | None => _execute_config (do_calls cs (h, __init__)).2.2 = ∅
  | Some b =>
      (is_statevector_backend (Some b) = true →
       _execute_config (do_calls cs (h, __init__)).2.2 !! "shots"
       = Some (VInt 1))
      ∧ (conf_simulator b = false →
         _execute_config (do_calls cs (h, __init__)).2.2 !! "config"
         = Some (VDict [("noise_params", VNone)]))
  end.
Proof.
  assert (configured (do_calls cs (h, __init__)).2.2) as H.
  { apply (do_calls_invariant configured); [|done].
    intros c h' self. apply do_call_configured. }
  unfold configured in H.
  destruct (_backend (do_calls cs (h, __init__)).2.2) as [b|]; [|done].
  destruct H as (a & seed & ->). unfold make_execute_config. split.
  - intros ->. lookup_literal.
  - intros ->. lookup_literal.
Qed.
